(** * Career Advisor: the advice client and the conversation controller

    A shallow embedding of [main.py]: the function [get_career_advice]
    and the three panels of the Streamlit script (initial, clarify,
    results), with the properties of the conversational flow proved
    about them.

    Python text is a sequence of Unicode code points, a value read from
    JSON is a tree of dicts, lists, strings and numbers, and the script
    mutates one session record; the embedding keeps these as they are. *)

From Stdlib Require Import List NArith ZArith Bool Lia.
From Stdlib Require Import Strings.String Strings.Ascii Numbers.DecimalString.
Import ListNotations.

Set Implicit Arguments.
Set Warnings "-register-all".

(** ** Python text *)

(** A [str] is the list of its code points. *)
Definition str := list N.

(** A literal of the script, written in ASCII. *)
Definition lit (s : string) : str :=
  map N_of_ascii (list_ascii_of_string s).

Module PyStr.

Fixpoint eqb (a b : str) : bool :=
  match a, b with
  | [], [] => true
  | x :: a', y :: b' => N.eqb x y && eqb a' b'
  | _, _ => false
  end.

(** [str.isspace] on one code point: the characters CPython classifies
    as whitespace, which are the ones [str.strip()] removes. *)
Definition isspace (c : N) : bool :=
  ((9 <=? c) && (c <=? 13) || (28 <=? c) && (c <=? 32)
   || (c =? 133) || (c =? 160) || (c =? 5760)
   || (8192 <=? c) && (c <=? 8202)
   || (c =? 8232) || (c =? 8233) || (c =? 8239) || (c =? 8287)
   || (c =? 12288))%N.

Fixpoint lstrip (s : str) : str :=
  match s with
  | [] => []
  | c :: r => if isspace c then lstrip r else s
  end.

Definition rstrip (s : str) : str := rev (lstrip (rev s)).

(** [s.strip()] *)
Definition strip (s : str) : str := rstrip (lstrip s).

(** Truth value of a string in a condition: non-empty. *)
Definition truthy (s : str) : bool :=
  match s with [] => false | _ :: _ => true end.

Fixpoint startswith (p s : str) : bool :=
  match p, s with
  | [], _ => true
  | x :: p', y :: s' => N.eqb x y && startswith p' s'
  | _ :: _, [] => false
  end.

(** [p in s] for two strings: [p] occurs in [s] as a substring. *)
Fixpoint contains (s p : str) : bool :=
  startswith p s ||
  match s with
  | [] => false
  | _ :: r => contains r p
  end.

(** The decimal text of an integer, as an f-string renders it. *)
Definition of_Z (z : Z) : str := lit (NilEmpty.string_of_int (Z.to_int z)).

(** Every character of [s] is whitespace (the empty text included). *)
Definition blank (s : str) : bool := forallb isspace s.

End PyStr.

(** ** Python values

    The values [json.loads] can produce.  A dict keeps its items in
    insertion order; a float is kept as the numeric token it was read
    from, since the script never computes with one. *)

Inductive value : Type :=
| PyNone
| PyBool (b : bool)
| PyInt (z : Z)
| PyFloat (token : str)
| PyStr (s : str)
| PyList (l : list value)
| PyDict (d : list (str * value)).

(** The exceptions the script can meet.  [TransportError] stands for
    whatever [requests.post] raises; [RecursionError] is what the JSON
    decoder raises on input nested too deeply. *)
Inductive exn : Type :=
| KeyError (k : value)
| IndexError
| TypeError
| AttributeError
| JSONDecodeError
| RecursionError
| UnboundLocalError (name : str)
| TransportError (msg : str).

(** [except json.JSONDecodeError] *)
Definition is_JSONDecodeError (e : exn) : bool :=
  match e with JSONDecodeError => true | _ => false end.

Module Dict.

Definition t := list (str * value).

Fixpoint get (k : str) (d : t) : option value :=
  match d with
  | [] => None
  | (k', v) :: r => if PyStr.eqb k k' then Some v else get k r
  end.

(** [k in d] *)
Definition mem (k : str) (d : t) : bool :=
  match get k d with Some _ => true | None => false end.

(** [d[k] = v] *)
Fixpoint set (k : str) (v : value) (d : t) : t :=
  match d with
  | [] => [(k, v)]
  | (k', v') :: r =>
      if PyStr.eqb k k' then (k', v) :: r else (k', v') :: set k v r
  end.

End Dict.

(** [k in x] for a string [k] and an arbitrary value [x]. *)
Definition py_in (k : str) (x : value) : exn + bool :=
  match x with
  | PyDict d => inr (Dict.mem k d)
  | PyList l =>
      inr (existsb (fun v => match v with
                             | PyStr s => PyStr.eqb k s
                             | _ => false
                             end) l)
  | PyStr s => inr (PyStr.contains s k)
  | PyNone | PyBool _ | PyInt _ | PyFloat _ => inl TypeError
  end.

(** [x[k]] for a string key. *)
Definition getitem (x : value) (k : str) : exn + value :=
  match x with
  | PyDict d =>
      match Dict.get k d with
      | Some v => inr v
      | None => inl (KeyError (PyStr k))
      end
  | _ => inl TypeError
  end.

(** [x[0]].  A dict read from JSON has string keys only, so the integer
    key is never present. *)
Definition getitem0 (x : value) : exn + value :=
  match x with
  | PyDict _ => inl (KeyError (PyInt 0))
  | PyList [] => inl IndexError
  | PyList (v :: _) => inr v
  | PyStr [] => inl IndexError
  | PyStr (c :: _) => inr (PyStr [c])
  | PyNone | PyBool _ | PyInt _ | PyFloat _ => inl TypeError
  end.

(** ** Computations that may raise *)

Definition bind_exn {A B} (m : exn + A) (k : A -> exn + B) : exn + B :=
  match m with
  | inl e => inl e
  | inr a => k a
  end.

Declare Scope exn_scope.
Delimit Scope exn_scope with exn.
Notation "x <- m ;; k" := (bind_exn m (fun x => k))
  (at level 61, m at next level, right associativity) : exn_scope.

(** ** The advice client *)

(** What [requests.post] is given, and what it gives back. *)
Record request : Type := {
  url : str;
  headers : list (str * str);
  data : str
}.

Record response : Type := {
  status_code : Z;
  text : str
}.

(** The remote end: the response to a request, or the exception
    [requests.post] raises. *)
Definition network := request -> exn + response.

(** The double quote and the line feed, which the prompt contains. *)
Definition dq : str := [34%N].
Definition nl : str := [10%N].

Definition system_prompt : str :=
  lit "You are a career advisor assistant. "
  ++ lit "Given a user conversation, perform these steps:" ++ nl
  ++ lit "1. Extract user interests and preferences." ++ nl
  ++ lit "2. Map those interests to suitable career paths based on the interests provided." ++ nl
  ++ lit "3. For each recommended path, generate a short explanation why it suits the user." ++ nl
  ++ lit "If no clear interests are found, ask a clarifying question." ++ nl
  ++ lit "Respond only in JSON with one of the following structures:" ++ nl
  ++ lit "- {" ++ dq ++ lit "interests" ++ dq ++ lit ": [...], "
  ++ dq ++ lit "mapping" ++ dq ++ lit ": {...}, "
  ++ dq ++ lit "explanations" ++ dq ++ lit ": {...}}" ++ nl
  ++ lit "- {" ++ dq ++ lit "clarify" ++ dq ++ lit ": "
  ++ dq ++ lit "<question>" ++ dq ++ lit "}" ++ nl.

Definition endpoint : str := lit "https://openrouter.ai/api/v1/chat/completions".

Definition payload (conversation : str) : value :=
  PyDict
    [ (lit "model", PyStr (lit "mistralai/devstral-small:free"));
      (lit "messages",
       PyList
         [ PyDict [ (lit "role", PyStr (lit "system"));
                    (lit "content", PyStr system_prompt) ];
           PyDict [ (lit "role", PyStr (lit "user"));
                    (lit "content",
                     PyStr (lit "Conversation: " ++ conversation)) ] ]) ].

(** [response.json()["choices"][0]["message"]["content"]] *)
Definition message_content (body : value) : exn + value :=
  (choices <- getitem body (lit "choices") ;;
   first <- getitem0 choices ;;
   message <- getitem first (lit "message") ;;
   getitem message (lit "content"))%exn.

Section Client.

(** The credential, and the library functions the client calls:
    [json.dumps], [json.loads] and [str(e)] on an exception. *)
Variable API_KEY : str.
Variable json_dumps : value -> str.
Variable json_loads : str -> exn + value.
Variable exc_str : exn -> str.

Definition request_for (conversation : str) : request :=
  {| url := endpoint;
     headers := [ (lit "Authorization", lit "Bearer " ++ API_KEY);
                  (lit "Content-Type", lit "application/json") ];
     data := json_dumps (payload conversation) |}.

(** [json.loads(x)] for an arbitrary value [x]: only text is decoded. *)
Definition loads (x : value) : exn + value :=
  match x with
  | PyStr s => json_loads s
  | _ => inl TypeError
  end.

(** [response.json()]: the body text decoded.  On a body that is not
    JSON, [requests] raises its own [JSONDecodeError], a subclass of the
    [json.JSONDecodeError] that line 64 catches. *)
Definition response_json (r : response) : exn + value :=
  json_loads (text r).

(** The body of the [try] block.  Besides what the block returns or
    raises, the first component is the local variable [content] as the
    block leaves it: [None] while it is still unassigned. *)
Definition try_block (post : network) (conversation : str)
  : option value * (exn + value) :=
  match post (request_for conversation) with
  | inl e => (None, inl e)
  | inr r =>
      if negb (status_code r =? 200)%Z then
        (None,
         inr (PyDict
                [ (lit "error",
                   PyStr (lit "Request failed (" ++ PyStr.of_Z (status_code r)
                          ++ lit "): " ++ text r)) ]))
      else
        match (body <- response_json r ;; message_content body)%exn with
        | inl e => (None, inl e)
        | inr content => (Some content, loads content)
        end
  end.

(** [except json.JSONDecodeError: return {"clarify": content.strip()}] *)
Definition on_decode_error (content : option value) : exn + value :=
  match content with
  | None => inl (UnboundLocalError (lit "content"))
  | Some (PyStr c) => inr (PyDict [ (lit "clarify", PyStr (PyStr.strip c)) ])
  | Some _ => inl AttributeError
  end.

(** [except Exception as e: return {"error": f"Error: {str(e)}"}] *)
Definition on_exception (e : exn) : exn + value :=
  inr (PyDict [ (lit "error", PyStr (lit "Error: " ++ exc_str e)) ]).

(** [get_career_advice(conversation)]: what the call returns, or the
    exception that leaves it. *)
Definition get_career_advice (post : network) (conversation : str)
  : exn + value :=
  match try_block post conversation with
  | (_, inr v) => inr v
  | (content, inl e) =>
      if is_JSONDecodeError e then on_decode_error content
      else on_exception e
  end.

(** The remote end answers the request for [conversation] with
    status 200 and a body whose first choice carries [content] as the
    assistant's message: line 61 assigns [content]. *)
Definition assistant_says (post : network) (conversation : str)
    (content : value) : Prop :=
  exists r body,
    post (request_for conversation) = inr r
    /\ status_code r = 200%Z
    /\ json_loads (text r) = inr body
    /\ message_content body = inr content.

End Client.

(** ** The session and the script's effects *)

(** [st.session_state.step]: one of ['initial'], ['clarify'] and
    ['results'] (here [showing_results], the field holding the advice
    being [results]). *)
Inductive step_name : Type := initial | clarify | showing_results.

(** [st.session_state]: the five fields the script initialises. *)
Record session : Type := {
  step : step_name;
  conversation : str;
  clarify_question : value;
  clarify_response : str;
  results : value
}.

(** The session a new browser tab starts with. *)
Definition fresh : session :=
  {| step := initial;
     conversation := [];
     clarify_question := PyStr [];
     clarify_response := [];
     results := PyNone |}.

Definition set_step (x : step_name) (s : session) : session :=
  {| step := x;
     conversation := conversation s;
     clarify_question := clarify_question s;
     clarify_response := clarify_response s;
     results := results s |}.

Definition set_conversation (x : str) (s : session) : session :=
  {| step := step s;
     conversation := x;
     clarify_question := clarify_question s;
     clarify_response := clarify_response s;
     results := results s |}.

Definition set_clarify_question (x : value) (s : session) : session :=
  {| step := step s;
     conversation := conversation s;
     clarify_question := x;
     clarify_response := clarify_response s;
     results := results s |}.

Definition set_clarify_response (x : str) (s : session) : session :=
  {| step := step s;
     conversation := conversation s;
     clarify_question := clarify_question s;
     clarify_response := x;
     results := results s |}.

Definition set_results (x : value) (s : session) : session :=
  {| step := step s;
     conversation := conversation s;
     clarify_question := clarify_question s;
     clarify_response := clarify_response s;
     results := x |}.

(** What a run of the script does to the outside: an element put on the
    page, or a request sent to the remote service. *)
Inductive effect : Type :=
| st_error (body : value)
| st_warning (body : str)
| st_info (question : value)
| st_text_area_disabled (label body : str)
| st_rendered (results : value)
| http_post (r : request).

(** How a run of the script stops early: [st.rerun()], [st.stop()], or
    an exception nothing catches. *)
Inductive signal : Type :=
| Rerun
| Stop
| Raise (e : exn).

(** A run: the session it leaves, the effects in order, and either the
    value computed or the signal that stopped it. *)
Record run (A : Type) : Type := {
  final : session;
  effects : list effect;
  outcome : signal + A
}.

Definition script (A : Type) : Type := session -> run A.

Definition ret {A} (a : A) : script A :=
  fun s => {| final := s; effects := []; outcome := inr a |}.

Definition bind {A B} (m : script A) (k : A -> script B) : script B :=
  fun s =>
    let r := m s in
    match outcome r with
    | inl sig => {| final := final r; effects := effects r; outcome := inl sig |}
    | inr a =>
        let r' := k a (final r) in
        {| final := final r';
           effects := effects r ++ effects r';
           outcome := outcome r' |}
    end.

Declare Scope script_scope.
Delimit Scope script_scope with script.
Notation "x <- m ;; k" := (bind m (fun x => k))
  (at level 61, m at next level, right associativity) : script_scope.
Notation "m ;; k" := (bind m (fun _ => k))
  (at level 61, right associativity) : script_scope.

(** Reading and assigning a field of [st.session_state]. *)
Definition read {A} (field : session -> A) : script A :=
  fun s => {| final := s; effects := []; outcome := inr (field s) |}.

Definition assign (update : session -> session) : script unit :=
  fun s => {| final := update s; effects := []; outcome := inr tt |}.

Definition emit (e : effect) : script unit :=
  fun s => {| final := s; effects := [e]; outcome := inr tt |}.

Definition stop {A} (sig : signal) : script A :=
  fun s => {| final := s; effects := []; outcome := inl sig |}.

(** [st.rerun()] *)
Definition st_rerun : script unit := stop Rerun.

(** [st.stop()] *)
Definition st_stop : script unit := stop Stop.

(** An expression of the script that may raise. *)
Definition eval {A} (x : exn + A) : script A :=
  match x with
  | inl e => stop (Raise e)
  | inr a => ret a
  end.

(** The requests a run sent, in order. *)
Fixpoint requests_of (l : list effect) : list request :=
  match l with
  | [] => []
  | http_post r :: l' => r :: requests_of l'
  | _ :: l' => requests_of l'
  end.

(** ** The conversation controller *)

(** The buttons of the page, by their widget keys. *)
Inductive button : Type :=
| initial_button
| clarify_button
| start_over
| new_analysis.

(** What the user did before a run of the script: the text the panel's
    input widget returns, and the button pressed, if any. *)
Record interaction : Type := {
  typed : str;
  pressed : option button
}.

Definition clicked (b : button) (i : interaction) : bool :=
  match pressed i, b with
  | Some initial_button, initial_button
  | Some clarify_button, clarify_button
  | Some start_over, start_over
  | Some new_analysis, new_analysis => true
  | _, _ => false
  end.

Section Controller.

Variable API_KEY : str.
Variable json_dumps : value -> str.
Variable json_loads : str -> exn + value.
Variable exc_str : exn -> str.

(** Lines 157 to 189 only put the stored results on the page; they
    are kept abstract: the elements shown, or the exception raised on
    a value they cannot display. *)
Variable display_results : value -> exn + list effect.

Local Open Scope script_scope.

(** A call of [get_career_advice] from the script.  The function posts
    one request, the first thing it does; the run records it, and an
    exception leaving the function ends the run. *)
Definition call_get_career_advice (post : network) (conversation : str)
  : script value :=
  emit (http_post (request_for API_KEY json_dumps conversation)) ;;
  eval (get_career_advice API_KEY json_dumps json_loads exc_str
          post conversation).

(** The branch on the returned value in the initial panel
    (lines 98 to 107). *)
Definition initial_dispatch (result : value) : script unit :=
  has_error <- eval (py_in (lit "error") result) ;;
  if has_error : bool then
    msg <- eval (getitem result (lit "error")) ;;
    emit (st_error msg)
  else
    has_clarify <- eval (py_in (lit "clarify") result) ;;
    if has_clarify : bool then
      question <- eval (getitem result (lit "clarify")) ;;
      assign (set_clarify_question question) ;;
      assign (set_step clarify) ;;
      st_rerun
    else
      assign (set_results result) ;;
      assign (set_step showing_results) ;;
      st_rerun.

(** The body of [if st.button("Get Advice", key="initial_button")]. *)
Definition on_initial_button (post : network) : script unit :=
  conv <- read conversation ;;
  if PyStr.truthy (PyStr.strip conv) then
    result <- call_get_career_advice post conv ;;
    initial_dispatch result
  else
    emit (st_warning (lit "Please enter your conversation first.")).

(** The branch on the returned value in the clarify panel
    (lines 132 to 142). *)
Definition clarify_dispatch (result : value) : script unit :=
  has_error <- eval (py_in (lit "error") result) ;;
  if has_error : bool then
    msg <- eval (getitem result (lit "error")) ;;
    emit (st_error msg)
  else
    has_clarify <- eval (py_in (lit "clarify") result) ;;
    if has_clarify : bool then
      question <- eval (getitem result (lit "clarify")) ;;
      assign (set_clarify_question question) ;;
      assign (set_clarify_response []) ;;
      st_rerun
    else
      assign (set_results result) ;;
      assign (set_step showing_results) ;;
      st_rerun.

(** The body of [if st.button("Get Advice", key="clarify_button")]. *)
Definition on_clarify_button (post : network) : script unit :=
  resp <- read clarify_response ;;
  if PyStr.truthy (PyStr.strip resp) then
    result <- call_get_career_advice post resp ;;
    clarify_dispatch result
  else
    emit (st_warning (lit "Please provide your response first.")).

(** The five assignments both reset buttons make, and the rerun. *)
Definition reset_session : script unit :=
  assign (set_step initial) ;;
  assign (set_conversation []) ;;
  assign (set_clarify_question (PyStr [])) ;;
  assign (set_clarify_response []) ;;
  assign (set_results PyNone) ;;
  st_rerun.

(** The body of [if st.button("Start Over", key="start_over")]. *)
Definition on_start_over : script unit := reset_session.

(** The body of [if st.button("Start New Analysis", key="new_analysis")]. *)
Definition on_new_analysis : script unit := reset_session.

Definition when (b : bool) (m : script unit) : script unit :=
  if b then m else ret tt.

(** Step 1: the initial panel. *)
Definition initial_panel (post : network) (i : interaction) : script unit :=
  assign (set_conversation (typed i)) ;;
  when (clicked initial_button i) (on_initial_button post).

(** Step 2: the clarification panel. *)
Definition clarify_panel (post : network) (i : interaction) : script unit :=
  conv <- read conversation ;;
  emit (st_text_area_disabled (lit "Original Conversation:") conv) ;;
  question <- read clarify_question ;;
  emit (st_info question) ;;
  assign (set_clarify_response (typed i)) ;;
  when (clicked clarify_button i) (on_clarify_button post) ;;
  when (clicked start_over i) on_start_over.

Fixpoint emit_all (l : list effect) : script unit :=
  match l with
  | [] => ret tt
  | e :: l' => emit e ;; emit_all l'
  end.

(** Step 3: the results panel. *)
Definition results_panel (i : interaction) : script unit :=
  res <- read results ;;
  page <- eval (display_results res) ;;
  emit_all page ;;
  when (clicked new_analysis i) on_new_analysis.

(** One run of the script, from the top.  Without a credential
    (lines 20 to 22; [API_KEY] is empty when neither the secrets nor the
    environment hold one) the run shows an error and stops; otherwise it
    shows the panel of the current step. *)
Definition main (post : network) (i : interaction) : script unit :=
  if PyStr.truthy API_KEY then
    current <- read step ;;
    match current with
    | initial => initial_panel post i
    | clarify => clarify_panel post i
    | showing_results => results_panel i
    end
  else
    emit (st_error
            (PyStr (lit "Please set OPENROUTER_API_KEY in your Streamlit secrets or .env file"))) ;;
    st_stop.

(** A user session: one run after another, each on the session the
    previous one left, each with its own interaction and its own
    answer from the network. *)
Fixpoint runs (l : list (network * interaction)) (s : session) : session :=
  match l with
  | [] => s
  | (post, i) :: l' => runs l' (final (main post i s))
  end.

(** The sessions such a sequence of runs goes through, one per run. *)
Fixpoint sessions (l : list (network * interaction)) (s : session)
  : list session :=
  match l with
  | [] => []
  | (post, i) :: l' =>
      let s' := final (main post i s) in s' :: sessions l' s'
  end.

(** A round of the clarification loop: the user types a response and
    presses the panel's "Get Advice", and the call comes back with a
    dict that has no ["error"] key and asks [question] under
    ["clarify"]. *)
Definition asks_again (post : network) (i : interaction) (question : value)
  : Prop :=
  pressed i = Some clarify_button
  /\ PyStr.blank (typed i) = false
  /\ exists d,
       get_career_advice API_KEY json_dumps json_loads exc_str
         post (typed i) = inr (PyDict d)
       /\ Dict.mem (lit "error") d = false
       /\ Dict.get (lit "clarify") d = Some question.

End Controller.

(** ** A reader for JSON text

    The library function [json.loads] is a parameter of the model.  For
    the worked examples it is instantiated with this reader, which
    follows the grammar the interpreter's decoder accepts: the four
    whitespace characters, the literals, numbers (an integer when the
    token has neither fraction nor exponent), strings with their escapes
    and surrogate pairs, arrays, and objects whose repeated keys keep the
    last value.  The fuel stands for the decoder's recursion limit. *)

Module Json.

Local Open Scope N_scope.

Definition is_ws (c : N) : bool :=
  (c =? 32) || (c =? 9) || (c =? 10) || (c =? 13).

Fixpoint skip_ws (s : str) : str :=
  match s with
  | [] => []
  | c :: r => if is_ws c then skip_ws r else s
  end.

Definition is_digit (c : N) : bool := (48 <=? c) && (c <=? 57).

(** The longest run of digits at the head of [s], and what follows. *)
Fixpoint span_digits (s : str) : str * str :=
  match s with
  | [] => ([], [])
  | c :: r =>
      if is_digit c then
        let (ds, rest) := span_digits r in (c :: ds, rest)
      else ([], s)
  end.

Definition digits_to_Z (ds : str) : Z :=
  fold_left (fun acc c => (10 * acc + Z.of_N (c - 48))%Z) ds 0%Z.

(** A number token at the head of [s]: an optional minus sign; a
    zero, or a non-zero digit and more digits; optionally a point and
    one digit or more; optionally an exponent mark, a sign and one
    digit or more.  A part that is started but not completed is left
    to the caller. *)
Definition parse_number (s : str) : option (value * str) :=
  let (sign, s1) :=
    match s with
    | 45 :: r => ([45], r)
    | _ => ([], s)
    end in
  match s1 with
  | [] => None
  | d :: r =>
      if is_digit d then
        let (ds, rest) :=
          if d =? 48 then ([48], r) else span_digits s1 in
        let (frac, rest1) :=
          match rest with
          | 46 :: r2 =>
              match span_digits r2 with
              | ([], _) => ([], rest)
              | (fd, r3) => (46 :: fd, r3)
              end
          | _ => ([], rest)
          end in
        let (expo, rest2) :=
          match rest1 with
          | e :: r2 =>
              if (e =? 101) || (e =? 69) then
                let (sg, r3) :=
                  match r2 with
                  | c :: r4 =>
                      if (c =? 43) || (c =? 45) then ([c], r4) else ([], r2)
                  | [] => ([], r2)
                  end in
                match span_digits r3 with
                | ([], _) => ([], rest1)
                | (ed, r5) => (e :: sg ++ ed, r5)
                end
              else ([], rest1)
          | [] => ([], rest1)
          end in
        match frac, expo with
        | [], [] =>
            Some (PyInt (match sign with
                         | [] => digits_to_Z ds
                         | _ => - digits_to_Z ds
                         end)%Z, rest2)
        | _, _ => Some (PyFloat (sign ++ ds ++ frac ++ expo), rest2)
        end
      else None
  end.

Definition hex_digit (c : N) : option N :=
  if (48 <=? c) && (c <=? 57) then Some (c - 48)
  else if (97 <=? c) && (c <=? 102) then Some (c - 87)
  else if (65 <=? c) && (c <=? 70) then Some (c - 55)
  else None.

Definition hex4 (a b c d : N) : option N :=
  match hex_digit a, hex_digit b, hex_digit c, hex_digit d with
  | Some x, Some y, Some z, Some w => Some (((x * 16 + y) * 16 + z) * 16 + w)
  | _, _, _, _ => None
  end.

(** The characters of a string after its opening quote, up to the
    closing one; [acc] holds what was read, last character first. *)
Fixpoint parse_string (s : str) (acc : str) : option (str * str) :=
  match s with
  | [] => None
  | 34 :: r => Some (rev acc, r)
  | 92 :: 117 :: a :: b :: c :: d :: r =>
      match hex4 a b c d with
      | None => None
      | Some hi =>
          if (55296 <=? hi) && (hi <=? 56319) then
            match r with
            | 92 :: 117 :: a' :: b' :: c' :: d' :: r' =>
                match hex4 a' b' c' d' with
                | Some lo =>
                    if (56320 <=? lo) && (lo <=? 57343) then
                      parse_string r'
                        (65536 + (hi - 55296) * 1024 + (lo - 56320) :: acc)
                    else parse_string r (hi :: acc)
                | None => parse_string r (hi :: acc)
                end
            | _ => parse_string r (hi :: acc)
            end
          else parse_string r (hi :: acc)
      end
  | 92 :: e :: r =>
      if e =? 34 then parse_string r (34 :: acc)
      else if e =? 92 then parse_string r (92 :: acc)
      else if e =? 47 then parse_string r (47 :: acc)
      else if e =? 98 then parse_string r (8 :: acc)
      else if e =? 102 then parse_string r (12 :: acc)
      else if e =? 110 then parse_string r (10 :: acc)
      else if e =? 114 then parse_string r (13 :: acc)
      else if e =? 116 then parse_string r (9 :: acc)
      else None
  | c :: r =>
      if c <? 32 then None else parse_string r (c :: acc)
  end.

(** The value at the head of [s], and the text after it.  A value
    does not skip whitespace before itself; arrays and objects skip it
    around their items. *)
Fixpoint parse_value (fuel : nat) (s : str) : exn + (value * str) :=
  match fuel with
  | O => inl RecursionError
  | S f =>
      match s with
      | 34 :: r =>
          match parse_string r [] with
          | Some (x, rest) => inr (PyStr x, rest)
          | None => inl JSONDecodeError
          end
      | 123 :: r =>
          match skip_ws r with
          | 125 :: rest => inr (PyDict [], rest)
          | r' => parse_members f [] r'
          end
      | 91 :: r =>
          match skip_ws r with
          | 93 :: rest => inr (PyList [], rest)
          | r' => parse_elements f [] r'
          end
      | 110 :: 117 :: 108 :: 108 :: rest => inr (PyNone, rest)
      | 116 :: 114 :: 117 :: 101 :: rest => inr (PyBool true, rest)
      | 102 :: 97 :: 108 :: 115 :: 101 :: rest => inr (PyBool false, rest)
      | _ =>
          match parse_number s with
          | Some found => inr found
          | None =>
              match s with
              | 78 :: 97 :: 78 :: rest => inr (PyFloat (lit "NaN"), rest)
              | 73 :: 110 :: 102 :: 105 :: 110 :: 105 :: 116 :: 121 :: rest =>
                  inr (PyFloat (lit "Infinity"), rest)
              | 45 :: 73 :: 110 :: 102 :: 105 :: 110 :: 105 :: 116 :: 121 :: rest =>
                  inr (PyFloat (lit "-Infinity"), rest)
              | _ => inl JSONDecodeError
              end
          end
      end
  end

(** The items of an array from an item on; [acc] holds the items
    read, last one first. *)
with parse_elements (fuel : nat) (acc : list value) (s : str)
  : exn + (value * str) :=
  match fuel with
  | O => inl RecursionError
  | S f =>
      match parse_value f s with
      | inl e => inl e
      | inr (v, rest) =>
          match skip_ws rest with
          | 93 :: rest' => inr (PyList (rev (v :: acc)), rest')
          | 44 :: rest' => parse_elements f (v :: acc) (skip_ws rest')
          | _ => inl JSONDecodeError
          end
      end
  end

(** The members of an object from a key on; [acc] is the dict built
    so far. *)
with parse_members (fuel : nat) (acc : Dict.t) (s : str)
  : exn + (value * str) :=
  match fuel with
  | O => inl RecursionError
  | S f =>
      match s with
      | 34 :: r =>
          match parse_string r [] with
          | None => inl JSONDecodeError
          | Some (k, rest) =>
              match skip_ws rest with
              | 58 :: rest1 =>
                  match parse_value f (skip_ws rest1) with
                  | inl e => inl e
                  | inr (v, rest2) =>
                      match skip_ws rest2 with
                      | 125 :: rest3 => inr (PyDict (Dict.set k v acc), rest3)
                      | 44 :: rest3 =>
                          parse_members f (Dict.set k v acc) (skip_ws rest3)
                      | _ => inl JSONDecodeError
                      end
                  end
              | _ => inl JSONDecodeError
              end
          end
      | _ => inl JSONDecodeError
      end
  end.

(** [json.loads(s)] *)
Definition loads (s : str) : exn + value :=
  match parse_value (2 * List.length s + 2) (skip_ws s) with
  | inl e => inl e
  | inr (v, rest) =>
      match skip_ws rest with
      | [] => inr v
      | _ :: _ => inl JSONDecodeError
      end
  end.

(** *** The writer, for the request data and the example bodies *)

Definition hex_char (n : N) : N :=
  if n <? 10 then 48 + n else 87 + n.

(** [\uXXXX] for a code unit below 65536. *)
Definition escape_unit (u : N) : str :=
  [92; 117; hex_char (u / 4096); hex_char ((u / 256) mod 16);
   hex_char ((u / 16) mod 16); hex_char (u mod 16)].

Definition escape_char (c : N) : str :=
  if c =? 34 then [92; 34]
  else if c =? 92 then [92; 92]
  else if c =? 10 then [92; 110]
  else if c =? 13 then [92; 114]
  else if c =? 9 then [92; 116]
  else if c =? 8 then [92; 98]
  else if c =? 12 then [92; 102]
  else if (32 <=? c) && (c <=? 127) then [c]
  else if c <? 65536 then escape_unit c
  else escape_unit (55296 + (c - 65536) / 1024)
       ++ escape_unit (56320 + (c - 65536) mod 1024).

Definition quote (s : str) : str :=
  [34] ++ flat_map escape_char s ++ [34].

(** [json.dumps(v)] with the default separators; a float is written
    back as the token it was read from. *)
Fixpoint dumps (v : value) : str :=
  match v with
  | PyNone => lit "null"
  | PyBool true => lit "true"
  | PyBool false => lit "false"
  | PyInt z => PyStr.of_Z z
  | PyFloat token => token
  | PyStr x => quote x
  | PyList l =>
      [91] ++
      (fix items (l : list value) : str :=
         match l with
         | [] => []
         | [x] => dumps x
         | x :: r => dumps x ++ [44; 32] ++ items r
         end) l
      ++ [93]
  | PyDict d =>
      [123] ++
      (fix members (d : list (str * value)) : str :=
         match d with
         | [] => []
         | [(k, x)] => quote k ++ [58; 32] ++ dumps x
         | (k, x) :: r => quote k ++ [58; 32] ++ dumps x ++ [44; 32] ++ members r
         end) d
      ++ [125]
  end.

End Json.

(** ** The setting of the worked examples *)

Module Demo.

Definition API_KEY : str := lit "sk-or-example".

(** [str(e)]: a transport error reads as its message, a missing key
    as the key, any other exception as the name of its class. *)
Definition exc_str (e : exn) : str :=
  match e with
  | TransportError msg => msg
  | KeyError k => Json.dumps k
  | IndexError => lit "IndexError"
  | TypeError => lit "TypeError"
  | AttributeError => lit "AttributeError"
  | JSONDecodeError => lit "JSONDecodeError"
  | RecursionError => lit "RecursionError"
  | UnboundLocalError name => name
  end.

(** The body of a chat completion whose assistant message is
    [content]. *)
Definition completion (content : str) : str :=
  Json.dumps
    (PyDict
       [ (lit "choices",
          PyList
            [ PyDict
                [ (lit "message",
                   PyDict [ (lit "role", PyStr (lit "assistant"));
                            (lit "content", PyStr content) ]) ] ]) ]).

(** A remote end that answers every request alike. *)
Definition answers (status : Z) (body : str) : network :=
  fun _ => inr {| status_code := status; text := body |}.

(** A remote end that cannot be reached. *)
Definition unreachable (msg : str) : network :=
  fun _ => inl (TransportError msg).

Definition get_career_advice : network -> str -> exn + value :=
  get_career_advice API_KEY Json.dumps Json.loads exc_str.

(** The results page of the examples shows the value as it is. *)
Definition display_results (v : value) : exn + list effect :=
  inr [st_rendered v].

Definition main : network -> interaction -> script unit :=
  main API_KEY Json.dumps Json.loads exc_str display_results.

Definition on_initial_button : network -> script unit :=
  on_initial_button API_KEY Json.dumps Json.loads exc_str.

Definition on_clarify_button : network -> script unit :=
  on_clarify_button API_KEY Json.dumps Json.loads exc_str.

(** A session in the initial panel with [t] in the text area, and one
    in the clarify panel with [t] as the response typed. *)
Definition typing (t : str) : session := set_conversation t fresh.

Definition answering (t : str) : session :=
  set_clarify_response t
    (set_clarify_question (PyStr (lit "What subjects do you enjoy?"))
       (set_step clarify (set_conversation (lit "I am not sure") fresh))).

(** The three replies of the specification's examples. *)
Definition plain_reply : str := lit "Could you tell me more?".

Definition clarify_reply : str :=
  Json.dumps (PyDict [ (lit "clarify", PyStr (lit "What subjects do you enjoy?")) ]).

Definition result_value : value :=
  PyDict
    [ (lit "interests", PyList [ PyStr (lit "Art") ]);
      (lit "mapping", PyDict [ (lit "Art", PyStr (lit "Designer")) ]);
      (lit "explanations", PyDict [ (lit "Designer", PyStr (lit "Creative fit")) ]) ].

Definition result_reply : str := Json.dumps result_value.

(** Replies that carry a key of another shape as well. *)
Definition error_and_clarify : Dict.t :=
  [ (lit "error", PyStr (lit "quota exceeded"));
    (lit "clarify", PyStr (lit "What subjects do you enjoy?")) ].

Definition result_and_clarify : Dict.t :=
  [ (lit "interests", PyList [ PyStr (lit "Art") ]);
    (lit "mapping", PyDict [ (lit "Art", PyStr (lit "Designer")) ]);
    (lit "explanations", PyDict [ (lit "Designer", PyStr (lit "Creative fit")) ]);
    (lit "clarify", PyStr (lit "Do you prefer digital or print?")) ].

Definition result_and_error : Dict.t :=
  [ (lit "interests", PyList [ PyStr (lit "Art") ]);
    (lit "mapping", PyDict [ (lit "Art", PyStr (lit "Designer")) ]);
    (lit "explanations", PyDict [ (lit "Designer", PyStr (lit "Creative fit")) ]);
    (lit "error", PyNone) ].

(** The remote end sending the dict [d] as the assistant's message. *)
Definition sends (d : Dict.t) : network :=
  answers 200 (completion (Json.dumps (PyDict d))).

(** Two rounds of the clarification loop. *)
Definition press (b : button) (t : str) : interaction :=
  {| typed := t; pressed := Some b |}.

Definition two_rounds : list (network * interaction * value) :=
  [ (sends [ (lit "clarify", PyStr (lit "Indoors or outdoors?")) ],
     press clarify_button (lit "I like making things"),
     PyStr (lit "Indoors or outdoors?"));
    (answers 200 (completion (lit "With people or alone?")),
     press clarify_button (lit "Outdoors"),
     PyStr (lit "With people or alone?")) ].

End Demo.

(** ** The rest of the script *)

(** *** The credential (lines 15 to 22) *)

(** Lines 15 to 18.  [secret] is what [st.secrets["OPENROUTER_API_KEY"]]
    evaluates to, a text or the exception raised; [getenv] is what
    [os.getenv("OPENROUTER_API_KEY")] returns.  Only [KeyError] and
    [AttributeError] are caught. *)
Definition resolve_api_key (secret : exn + str) (getenv : option str)
  : exn + option str :=
  match secret with
  | inr key => inr (Some key)
  | inl (KeyError _) => inr getenv
  | inl AttributeError => inr getenv
  | inl e => inl e
  end.

(** [not API_KEY] for the value so obtained: [None] or the empty text. *)
Definition not_key (key : option str) : bool :=
  match key with
  | None => true
  | Some k => negb (PyStr.truthy k)
  end.

(** The credential as the text the client is given; without one the
    script stops before the client is ever called. *)
Definition key_text (key : option str) : str :=
  match key with
  | None => []
  | Some k => k
  end.

(** *** The results page (lines 157 to 189) *)

(** The elements the results panel puts on the page. *)
Inductive element : Type :=
| st_success (body : str)
| st_subheader (body : str)
| st_write (body : str)
| st_write_value (body : value)
| st_json (body : value)
| st_expander (label : str) (inside : list element).

(** A stretch of the page: the elements shown, and the exception that
    cut it short, if any. *)
Definition page : Type := list element * option exn.

Definition shows (l : list element) : page := (l, None).

Definition raises (e : exn) : page := ([], Some e).

Definition and_then (p q : page) : page :=
  match snd p with
  | Some _ => p
  | None => (fst p ++ fst q, snd q)
  end.

Section Page.

(** [str(x)] for a list, a dict or a float, and the truth value of a
    float: both belong to the interpreter. *)
Variable py_repr : value -> str.
Variable float_truthy : str -> bool.

(** The text an f-string puts for [{x}]. *)
Definition format_value (x : value) : str :=
  match x with
  | PyStr s => s
  | PyInt z => PyStr.of_Z z
  | PyNone => lit "None"
  | PyBool true => lit "True"
  | PyBool false => lit "False"
  | PyFloat _ | PyList _ | PyDict _ => py_repr x
  end.

(** The truth value of [x] in a condition. *)
Definition truth (x : value) : bool :=
  match x with
  | PyNone => false
  | PyBool b => b
  | PyInt z => negb (z =? 0)%Z
  | PyFloat token => float_truthy token
  | PyStr s => PyStr.truthy s
  | PyList [] => false
  | PyList (_ :: _) => true
  | PyDict [] => false
  | PyDict (_ :: _) => true
  end.

(** [for i, interest in enumerate(interests, i): st.write(f"{i}. {interest}")] *)
Fixpoint numbered (i : Z) (interests : list value) : list element :=
  match interests with
  | [] => []
  | interest :: rest =>
      st_write (PyStr.of_Z i ++ lit ". " ++ format_value interest)
      :: numbered (i + 1) rest
  end.

(** [st.write(f"**{interest}** -> {path}")], the arrow being U+2192. *)
Definition mapping_line (item : str * value) : element :=
  st_write (lit "**" ++ fst item ++ lit "** " ++ [8594%N] ++ lit " "
            ++ format_value (snd item)).

(** [with st.expander(f"Why {path}?"): st.write(explanation)] *)
Definition explanation_block (item : str * value) : element :=
  st_expander (lit "Why " ++ fst item ++ lit "?") [ st_write_value (snd item) ].

(** One of the three blocks: the test [key in results], the subheader,
    the subscript, and the body chosen by the type of the value. *)
Definition block (key title : str) (body : value -> list element)
    (results : value) : page :=
  match py_in key results with
  | inl e => raises e
  | inr false => shows []
  | inr true =>
      and_then (shows [ st_subheader title ])
        match getitem results key with
        | inl e => raises e
        | inr v => shows (body v)
        end
  end.

(** What a block comes to when the results are the dict [d]. *)
Definition block_of (key title : str) (body : value -> list element)
    (d : Dict.t) : list element :=
  match Dict.get key d with
  | Some v => st_subheader title :: body v
  | None => []
  end.

Definition interests_body (interests : value) : list element :=
  match interests with
  | PyList l => numbered 1 l
  | _ => [ st_write_value interests ]
  end.

Definition mapping_body (mapping : value) : list element :=
  match mapping with
  | PyDict d => map mapping_line d
  | _ => [ st_json mapping ]
  end.

Definition explanations_body (explanations : value) : list element :=
  match explanations with
  | PyDict d => map explanation_block d
  | _ => [ st_json explanations ]
  end.

(** Lines 157 to 189: [if st.session_state.results: ...]. *)
Definition render_results (results : value) : page :=
  if truth results then
    and_then (shows [ st_success ([9989%N] ++ lit " Analysis Complete!") ])
      (and_then
         (block (lit "interests") ([127919%N] ++ lit " Extracted Interests")
            interests_body results)
         (and_then
            (block (lit "mapping")
               ([128506%N; 65039%N] ++ lit " Career Path Mapping")
               mapping_body results)
            (block (lit "explanations") ([128161%N] ++ lit " Explanations")
               explanations_body results)))
  else shows [].

(** The results page as the panel of [main] takes it: the exception
    when the page is cut short, else the page, recorded as one effect
    (its elements are those of [render_results]). *)
Definition displayed (results : value) : exn + list effect :=
  match snd (render_results results) with
  | Some e => inl e
  | None => inr [ st_rendered results ]
  end.

Variable json_dumps : value -> str.
Variable json_loads : str -> exn + value.
Variable exc_str : exn -> str.

(** The script from its first line: the credential is resolved, then
    the run goes on as [main] describes. *)
Definition script_run (secret : exn + str) (getenv : option str)
    (post : network) (i : interaction) : script unit :=
  match resolve_api_key secret getenv with
  | inl e => stop (Raise e)
  | inr key => main (key_text key) json_dumps json_loads exc_str displayed post i
  end.

(** A user session of the whole script. *)
Fixpoint script_runs (secret : exn + str) (getenv : option str)
    (l : list (network * interaction)) (s : session) : session :=
  match l with
  | [] => s
  | (post, i) :: l' =>
      script_runs secret getenv l' (final (script_run secret getenv post i s))
  end.

End Page.

(** *** Sessions the script can be in *)

(** What holds of the session between runs: outside the results panel
    nothing is stored in [results], in the initial panel nothing is left
    of a clarification, and what the results panel holds was neither an
    error nor a question. *)
Definition consistent (s : session) : Prop :=
  match step s with
  | initial =>
      clarify_question s = PyStr [] /\ clarify_response s = []
      /\ results s = PyNone
  | clarify => results s = PyNone
  | showing_results =>
      py_in (lit "error") (results s) = inr false
      /\ py_in (lit "clarify") (results s) = inr false
  end.

(** The setting of the further examples. *)
Module Scene.

Definition py_repr (v : value) : str := Json.dumps v.

(** The mantissa of a numeric token: what precedes the exponent mark. *)
Fixpoint mantissa (token : str) : str :=
  match token with
  | [] => []
  | c :: r => if ((c =? 101) || (c =? 69))%N then [] else c :: mantissa r
  end.

(** A float is false when it is zero: its token has digits, and those
    of the mantissa are all zeros. *)
Definition float_truthy (token : str) : bool :=
  negb (existsb Json.is_digit token)
  || existsb (fun c => (49 <=? c) && (c <=? 57))%N (mantissa token).

Definition render_results : value -> page := render_results py_repr float_truthy.

Definition displayed : value -> exn + list effect := displayed py_repr float_truthy.

Definition script_run
  : exn + str -> option str -> network -> interaction -> script unit :=
  script_run py_repr float_truthy Json.dumps Json.loads Demo.exc_str.

(** A session whose reply decoded to [v] and was stored. *)
Definition showing (v : value) : session :=
  set_step showing_results (set_results v (Demo.typing (lit "I like art"))).

(** The body of a chat completion whose message content is the value
    [content], a text or not. *)
Definition completion_of (content : value) : str :=
  Json.dumps
    (PyDict
       [ (lit "choices",
          PyList [ PyDict [ (lit "message",
                             PyDict [ (lit "content", content) ]) ] ]) ]).

(** An assistant that answers with a JSON string instead of an object. *)
Definition quoted_reply : str := lit "Tell me more about your interests".

Definition sends_quoted : network :=
  Demo.answers 200 (Demo.completion (Json.dumps (PyStr quoted_reply))).

End Scene.

(** * Properties *)

(** ** Text *)

Lemma eqb_refl (a : str) : PyStr.eqb a a = true.
Proof.
  induction a as [|x a IH]; simpl; [reflexivity|].
  now rewrite N.eqb_refl, IH.
Qed.

Lemma eqb_eq (a b : str) : PyStr.eqb a b = true <-> a = b.
Proof.
  split; [|intros ->; apply eqb_refl].
  revert b; induction a as [|x a IH]; intros [|y b]; simpl; try discriminate.
  - reflexivity.
  - intros H. apply andb_true_iff in H as [Hx Hab].
    apply N.eqb_eq in Hx. apply IH in Hab. congruence.
Qed.

Lemma lstrip_blank (s : str) : PyStr.lstrip s = [] <-> PyStr.blank s = true.
Proof.
  unfold PyStr.blank.
  induction s as [|c s IH]; simpl; [tauto|].
  destruct (PyStr.isspace c); simpl; [exact IH|].
  split; discriminate.
Qed.

Lemma blank_rev (s : str) : PyStr.blank (rev s) = PyStr.blank s.
Proof.
  unfold PyStr.blank.
  destruct (forallb PyStr.isspace s) eqn:E.
  - apply forallb_forall. intros x Hx. apply in_rev in Hx.
    rewrite forallb_forall in E. auto.
  - destruct (forallb PyStr.isspace (rev s)) eqn:E'; [|reflexivity].
    rewrite <- E. symmetry. apply forallb_forall. intros x Hx.
    rewrite forallb_forall in E'. apply E'. now apply in_rev in Hx.
Qed.

Lemma lstrip_head (s : str) :
  match PyStr.lstrip s with
  | [] => True
  | c :: _ => PyStr.isspace c = false
  end.
Proof.
  induction s as [|c s IH]; simpl; [exact I|].
  destruct (PyStr.isspace c) eqn:E; [exact IH|exact E].
Qed.

(** [s.strip()] is empty exactly when [s] holds whitespace only. *)
Lemma strip_blank (s : str) : PyStr.strip s = [] <-> PyStr.blank s = true.
Proof.
  unfold PyStr.strip, PyStr.rstrip. split.
  - intros H.
    assert (H1 : PyStr.lstrip (rev (PyStr.lstrip s)) = []).
    { destruct (PyStr.lstrip (rev (PyStr.lstrip s))) as [|c t] eqn:E;
        [reflexivity|].
      simpl in H. destruct (rev t); discriminate. }
    apply lstrip_blank in H1. rewrite blank_rev in H1.
    pose proof (lstrip_head s) as Hh.
    destruct (PyStr.lstrip s) as [|c t] eqn:E.
    + now apply lstrip_blank.
    + unfold PyStr.blank in H1. simpl in H1. rewrite Hh in H1. discriminate.
  - intros H. apply lstrip_blank in H. now rewrite H.
Qed.

Lemma truthy_strip (s : str) :
  PyStr.truthy (PyStr.strip s) = negb (PyStr.blank s).
Proof.
  destruct (PyStr.blank s) eqn:E.
  - apply strip_blank in E. now rewrite E.
  - destruct (PyStr.strip s) eqn:E'; [|reflexivity].
    apply strip_blank in E'. congruence.
Qed.

Lemma startswith_app (p b : str) : PyStr.startswith p (p ++ b) = true.
Proof.
  induction p as [|x p IH]; simpl; [reflexivity|].
  now rewrite N.eqb_refl, IH.
Qed.

(** A text contains each of the pieces it is put together from. *)
Lemma contains_app (a p b : str) : PyStr.contains (a ++ p ++ b) p = true.
Proof.
  assert (unfold_contains : forall s q,
             PyStr.contains s q
             = PyStr.startswith q s
               || match s with [] => false | _ :: r => PyStr.contains r q end).
  { intros [|c s] q; reflexivity. }
  induction a as [|x a IH].
  - rewrite unfold_contains. simpl app. now rewrite startswith_app.
  - change (PyStr.contains ((x :: a) ++ p ++ b) p)
      with (PyStr.startswith p (x :: a ++ p ++ b)
            || PyStr.contains (a ++ p ++ b) p).
    rewrite IH. apply orb_true_r.
Qed.

Lemma mem_get (k : str) (d : Dict.t) (v : value) :
  Dict.get k d = Some v -> Dict.mem k d = true.
Proof. unfold Dict.mem. now intros ->. Qed.

(** ** The advice client *)

Section ClientFacts.

Variable API_KEY : str.
Variable json_dumps : value -> str.
Variable json_loads : str -> exn + value.
Variable exc_str : exn -> str.

Let advice := get_career_advice API_KEY json_dumps json_loads exc_str.
Let says := assistant_says API_KEY json_dumps json_loads.

(** Once line 61 has assigned [content], the call is decided by
    [json.loads(content)]. *)
Lemma advice_of_content post conversation content :
  says post conversation content ->
  advice post conversation
  = match loads json_loads content with
    | inr v => inr v
    | inl e =>
        if is_JSONDecodeError e then on_decode_error (Some content)
        else on_exception exc_str e
    end.
Proof.
  intros (r & body & Hpost & Hstatus & Hbody & Hcontent).
  unfold advice, get_career_advice, try_block, response_json.
  rewrite Hpost, Hstatus, Hbody. simpl. rewrite Hcontent.
  destruct (loads json_loads content); reflexivity.
Qed.

(** A reply that decodes is returned as it is. *)
Lemma advice_decoded post conversation content v :
  says post conversation (PyStr content) ->
  json_loads content = inr v ->
  advice post conversation = inr v.
Proof.
  intros Hsays Hv. rewrite (advice_of_content Hsays). simpl. now rewrite Hv.
Qed.

(** Lines 58 and 59. *)
Lemma advice_of_status post conversation r :
  post (request_for API_KEY json_dumps conversation) = inr r ->
  status_code r <> 200%Z ->
  advice post conversation
  = inr (PyDict
           [ (lit "error",
              PyStr (lit "Request failed (" ++ PyStr.of_Z (status_code r)
                     ++ lit "): " ++ text r)) ]).
Proof.
  intros Hpost Hstatus.
  unfold advice, get_career_advice, try_block. rewrite Hpost.
  apply Z.eqb_neq in Hstatus. now rewrite Hstatus.
Qed.

(** Line 68: whatever [requests.post] raises, other than a decoding
    error, comes back as an error dict. *)
Lemma advice_of_fault post conversation e :
  post (request_for API_KEY json_dumps conversation) = inl e ->
  is_JSONDecodeError e = false ->
  advice post conversation
  = inr (PyDict [ (lit "error", PyStr (lit "Error: " ++ exc_str e)) ]).
Proof.
  intros Hpost He.
  unfold advice, get_career_advice, try_block. rewrite Hpost, He.
  reflexivity.
Qed.

(** C1.  When the response has status 200 and the assistant's message
    is a text that [json.loads] rejects as not being JSON, the call
    returns the dict [{"clarify": content.strip()}]: a clarification
    whose question is the message with the whitespace around it
    removed, and a dict that has no ["error"] key. *)
Theorem plain_text_reply_is_clarify post conversation content :
  says post conversation (PyStr content) ->
  json_loads content = inl JSONDecodeError ->
  advice post conversation
  = inr (PyDict [ (lit "clarify", PyStr (PyStr.strip content)) ])
  /\ (forall v, advice post conversation = inr v ->
                py_in (lit "error") v = inr false
                /\ getitem v (lit "clarify") = inr (PyStr (PyStr.strip content))).
Proof.
  intros Hsays Hfail.
  assert (E : advice post conversation
              = inr (PyDict [ (lit "clarify", PyStr (PyStr.strip content)) ])).
  { rewrite (advice_of_content Hsays). simpl. now rewrite Hfail. }
  split; [exact E|].
  intros v Hv. rewrite E in Hv. injection Hv as <-.
  split; reflexivity.
Qed.

(** C2.  When the response has status 200 and its body is not JSON,
    [response.json()] raises the decoding error on line 61, before
    [content] is assigned: the [try] block ends with [content]
    unbound, the handler of line 66 reads it, and the call ends with
    [UnboundLocalError] instead of returning a value. *)
Theorem undecodable_body_leaves_content_unbound post conversation r :
  post (request_for API_KEY json_dumps conversation) = inr r ->
  status_code r = 200%Z ->
  json_loads (text r) = inl JSONDecodeError ->
  try_block API_KEY json_dumps json_loads post conversation
  = (None, inl JSONDecodeError)
  /\ advice post conversation = inl (UnboundLocalError (lit "content"))
  /\ (forall v, advice post conversation <> inr v).
Proof.
  intros Hpost Hstatus Hbody.
  assert (E : try_block API_KEY json_dumps json_loads post conversation
              = (None, inl JSONDecodeError)).
  { unfold try_block, response_json. now rewrite Hpost, Hstatus, Hbody. }
  assert (E' : advice post conversation
               = inl (UnboundLocalError (lit "content"))).
  { unfold advice, get_career_advice. now rewrite E. }
  repeat split; [exact E|exact E'|].
  intros v Hv. rewrite E' in Hv. discriminate.
Qed.

End ClientFacts.

Lemma plain_text_reply_is_clarify_example :
  Demo.get_career_advice
    (Demo.answers 200 (Demo.completion (lit "  Could you tell me more? ")))
    (lit "I am not sure what I like")
  = inr (PyDict [ (lit "clarify", PyStr (lit "Could you tell me more?")) ]).
Proof.
  refine (proj1 (@plain_text_reply_is_clarify
                   Demo.API_KEY Json.dumps Json.loads Demo.exc_str
                   (Demo.answers 200
                      (Demo.completion (lit "  Could you tell me more? ")))
                   (lit "I am not sure what I like")
                   (lit "  Could you tell me more? ") _ _)).
  - eexists. eexists. repeat split; vm_compute; reflexivity.
  - vm_compute. reflexivity.
Defined.

Lemma undecodable_body_example :
  Demo.get_career_advice (Demo.answers 200 (lit "<html>Service Unavailable</html>"))
    (lit "I like drawing")
  = inl (UnboundLocalError (lit "content")).
Proof.
  refine (proj1 (proj2 (@undecodable_body_leaves_content_unbound
                          Demo.API_KEY Json.dumps Json.loads Demo.exc_str
                          (Demo.answers 200 (lit "<html>Service Unavailable</html>"))
                          (lit "I like drawing")
                          {| status_code := 200;
                             text := lit "<html>Service Unavailable</html>" |}
                          _ _ _)));
    vm_compute; reflexivity.
Defined.

(** ** The conversation controller *)

Section ControllerFacts.

Variable API_KEY : str.
Variable json_dumps : value -> str.
Variable json_loads : str -> exn + value.
Variable exc_str : exn -> str.

Let advice := get_career_advice API_KEY json_dumps json_loads exc_str.
Let says := assistant_says API_KEY json_dumps json_loads.
Let request_of := request_for API_KEY json_dumps.
Let initial_click := on_initial_button API_KEY json_dumps json_loads exc_str.
Let clarify_click := on_clarify_button API_KEY json_dumps json_loads exc_str.

(** *** The branch on the returned dict *)

Lemma initial_dispatch_error d msg s :
  Dict.get (lit "error") d = Some msg ->
  initial_dispatch (PyDict d) s
  = {| final := s; effects := [st_error msg]; outcome := inr tt |}.
Proof.
  intros H. unfold initial_dispatch, bind, eval, py_in, getitem.
  rewrite (mem_get _ _ H), H. reflexivity.
Qed.

Lemma initial_dispatch_clarify d question s :
  Dict.mem (lit "error") d = false ->
  Dict.get (lit "clarify") d = Some question ->
  initial_dispatch (PyDict d) s
  = {| final := set_step clarify (set_clarify_question question s);
       effects := [];
       outcome := inl Rerun |}.
Proof.
  intros He H. unfold initial_dispatch, bind, eval, py_in, getitem.
  rewrite He, (mem_get _ _ H), H. reflexivity.
Qed.

Lemma initial_dispatch_result d s :
  Dict.mem (lit "error") d = false ->
  Dict.mem (lit "clarify") d = false ->
  initial_dispatch (PyDict d) s
  = {| final := set_step showing_results (set_results (PyDict d) s);
       effects := [];
       outcome := inl Rerun |}.
Proof.
  intros He Hc. unfold initial_dispatch, bind, eval, py_in.
  rewrite He, Hc. reflexivity.
Qed.

Lemma clarify_dispatch_error d msg s :
  Dict.get (lit "error") d = Some msg ->
  clarify_dispatch (PyDict d) s
  = {| final := s; effects := [st_error msg]; outcome := inr tt |}.
Proof.
  intros H. unfold clarify_dispatch, bind, eval, py_in, getitem.
  rewrite (mem_get _ _ H), H. reflexivity.
Qed.

Lemma clarify_dispatch_clarify d question s :
  Dict.mem (lit "error") d = false ->
  Dict.get (lit "clarify") d = Some question ->
  clarify_dispatch (PyDict d) s
  = {| final := set_clarify_response [] (set_clarify_question question s);
       effects := [];
       outcome := inl Rerun |}.
Proof.
  intros He H. unfold clarify_dispatch, bind, eval, py_in, getitem.
  rewrite He, (mem_get _ _ H), H. reflexivity.
Qed.

Lemma clarify_dispatch_result d s :
  Dict.mem (lit "error") d = false ->
  Dict.mem (lit "clarify") d = false ->
  clarify_dispatch (PyDict d) s
  = {| final := set_step showing_results (set_results (PyDict d) s);
       effects := [];
       outcome := inl Rerun |}.
Proof.
  intros He Hc. unfold clarify_dispatch, bind, eval, py_in.
  rewrite He, Hc. reflexivity.
Qed.

(** *** The two "Get Advice" buttons *)

(** With text to send, the button posts one request and branches on
    what the call returns. *)
Lemma initial_click_returned post s v :
  PyStr.blank (conversation s) = false ->
  advice post (conversation s) = inr v ->
  initial_click post s
  = {| final := final (initial_dispatch v s);
       effects := http_post (request_of (conversation s))
                  :: effects (initial_dispatch v s);
       outcome := outcome (initial_dispatch v s) |}.
Proof.
  intros Hs Hv.
  unfold initial_click, on_initial_button, call_get_career_advice,
    bind, read, emit.
  simpl. rewrite truthy_strip, Hs. simpl.
  fold advice. rewrite Hv. simpl.
  destruct (initial_dispatch v s) as [f e [sig|[]]]; reflexivity.
Qed.

Lemma clarify_click_returned post s v :
  PyStr.blank (clarify_response s) = false ->
  advice post (clarify_response s) = inr v ->
  clarify_click post s
  = {| final := final (clarify_dispatch v s);
       effects := http_post (request_of (clarify_response s))
                  :: effects (clarify_dispatch v s);
       outcome := outcome (clarify_dispatch v s) |}.
Proof.
  intros Hs Hv.
  unfold clarify_click, on_clarify_button, call_get_career_advice,
    bind, read, emit.
  simpl. rewrite truthy_strip, Hs. simpl.
  fold advice. rewrite Hv. simpl.
  destruct (clarify_dispatch v s) as [f e [sig|[]]]; reflexivity.
Qed.

(** An exception that leaves the call ends the run where it stands. *)
Lemma initial_click_raised post s e :
  PyStr.blank (conversation s) = false ->
  advice post (conversation s) = inl e ->
  initial_click post s
  = {| final := s;
       effects := [http_post (request_of (conversation s))];
       outcome := inl (Raise e) |}.
Proof.
  intros Hs He.
  unfold initial_click, on_initial_button, call_get_career_advice,
    bind, read, emit.
  simpl. rewrite truthy_strip, Hs. simpl.
  fold advice. rewrite He. reflexivity.
Qed.

Lemma clarify_click_raised post s e :
  PyStr.blank (clarify_response s) = false ->
  advice post (clarify_response s) = inl e ->
  clarify_click post s
  = {| final := s;
       effects := [http_post (request_of (clarify_response s))];
       outcome := inl (Raise e) |}.
Proof.
  intros Hs He.
  unfold clarify_click, on_clarify_button, call_get_career_advice,
    bind, read, emit.
  simpl. rewrite truthy_strip, Hs. simpl.
  fold advice. rewrite He. reflexivity.
Qed.

(** *** Upstream errors *)

(** C3.  A response whose status is not 200 comes back as the dict
    [{"error": "Request failed (<status>): <body>"}]; the message
    contains the decimal status code and the body text.  In the
    initial panel and in the clarify panel alike, the button that
    receives it shows the message with [st.error] and leaves every
    session field, the step included, as it was. *)
Theorem failed_status_is_error post r :
  status_code r <> 200%Z ->
  let msg := lit "Request failed (" ++ PyStr.of_Z (status_code r)
             ++ lit "): " ++ text r in
  (forall conversation,
      post (request_of conversation) = inr r ->
      advice post conversation = inr (PyDict [ (lit "error", PyStr msg) ]))
  /\ PyStr.contains msg (PyStr.of_Z (status_code r)) = true
  /\ PyStr.contains msg (text r) = true
  /\ (forall s,
         PyStr.blank (conversation s) = false ->
         post (request_of (conversation s)) = inr r ->
         initial_click post s
         = {| final := s;
              effects := [ http_post (request_of (conversation s));
                           st_error (PyStr msg) ];
              outcome := inr tt |})
  /\ (forall s,
         PyStr.blank (clarify_response s) = false ->
         post (request_of (clarify_response s)) = inr r ->
         clarify_click post s
         = {| final := s;
              effects := [ http_post (request_of (clarify_response s));
                           st_error (PyStr msg) ];
              outcome := inr tt |}).
Proof.
  intros Hstatus msg.
  assert (Hadvice : forall conversation,
             post (request_of conversation) = inr r ->
             advice post conversation
             = inr (PyDict [ (lit "error", PyStr msg) ])).
  { intros conversation Hpost.
    now apply advice_of_status. }
  split; [exact Hadvice|].
  split; [apply contains_app|].
  split.
  { replace msg
      with ((lit "Request failed (" ++ PyStr.of_Z (status_code r)
             ++ lit "): ") ++ text r ++ []).
    - apply contains_app.
    - unfold msg. now rewrite app_nil_r, <- !app_assoc. }
  split; intros s Hs Hpost.
  - rewrite (initial_click_returned _ _ Hs (Hadvice _ Hpost)).
    now rewrite initial_dispatch_error with (msg := PyStr msg).
  - rewrite (clarify_click_returned _ _ Hs (Hadvice _ Hpost)).
    now rewrite clarify_dispatch_error with (msg := PyStr msg).
Qed.

(** *** Replies that decode to a dict *)

(** C10.  When the response has status 200 and the assistant's
    message decodes to a dict with an ["error"] key, the call returns
    that dict, and both "Get Advice" buttons take the first branch,
    whatever else the dict holds: the value under ["error"] is shown
    with [st.error], no rerun is asked for, and the session, the step
    included, is left as it was.  Such a reply therefore moves the
    session neither to the clarify panel nor to the results panel. *)
Theorem reply_with_error_key_is_error post content d msg :
  json_loads content = inr (PyDict d) ->
  Dict.get (lit "error") d = Some msg ->
  (forall s,
      PyStr.blank (conversation s) = false ->
      says post (conversation s) (PyStr content) ->
      advice post (conversation s) = inr (PyDict d)
      /\ initial_click post s
         = {| final := s;
              effects := [ http_post (request_of (conversation s));
                           st_error msg ];
              outcome := inr tt |})
  /\ (forall s,
         PyStr.blank (clarify_response s) = false ->
         says post (clarify_response s) (PyStr content) ->
         advice post (clarify_response s) = inr (PyDict d)
         /\ clarify_click post s
            = {| final := s;
                 effects := [ http_post (request_of (clarify_response s));
                              st_error msg ];
                 outcome := inr tt |}).
Proof.
  intros Hd Hmsg. split; intros s Hs Hsays.
  - pose proof (advice_decoded exc_str Hsays Hd) as Hv.
    split; [exact Hv|].
    rewrite (initial_click_returned _ _ Hs Hv).
    now rewrite initial_dispatch_error with (msg := msg).
  - pose proof (advice_decoded exc_str Hsays Hd) as Hv.
    split; [exact Hv|].
    rewrite (clarify_click_returned _ _ Hs Hv).
    now rewrite clarify_dispatch_error with (msg := msg).
Qed.

(** C4, as the code has it.  When the response has status 200 and the
    assistant's message decodes to a dict with a ["clarify"] key and
    no ["error"] key, the call returns that dict, and the initial
    panel's button stores the value under ["clarify"] in
    [clarify_question], sets the step to ['clarify'] and asks for a
    rerun. *)
Theorem clarify_reply_opens_clarify_panel post s content d question :
  PyStr.blank (conversation s) = false ->
  says post (conversation s) (PyStr content) ->
  json_loads content = inr (PyDict d) ->
  Dict.mem (lit "error") d = false ->
  Dict.get (lit "clarify") d = Some question ->
  advice post (conversation s) = inr (PyDict d)
  /\ initial_click post s
     = {| final := set_step clarify (set_clarify_question question s);
          effects := [ http_post (request_of (conversation s)) ];
          outcome := inl Rerun |}.
Proof.
  intros Hs Hsays Hd Herr Hq.
  pose proof (advice_decoded exc_str Hsays Hd) as Hv.
  split; [exact Hv|].
  rewrite (initial_click_returned _ _ Hs Hv).
  now rewrite initial_dispatch_clarify with (question := question).
Qed.

(** C5, as the code has it.  When the response has status 200 and the
    assistant's message decodes to a dict with neither an ["error"] nor
    a ["clarify"] key, be it one with ["interests"], ["mapping"] and
    ["explanations"] or with some of them only, the call returns that
    very dict, with the keys the reply has and no others, and both
    "Get Advice" buttons store it in [results], set the step to
    ['results'] and ask for a rerun. *)
Theorem result_reply_opens_results_panel post content d :
  json_loads content = inr (PyDict d) ->
  Dict.mem (lit "error") d = false ->
  Dict.mem (lit "clarify") d = false ->
  (forall s,
      PyStr.blank (conversation s) = false ->
      says post (conversation s) (PyStr content) ->
      advice post (conversation s) = inr (PyDict d)
      /\ initial_click post s
         = {| final := set_step showing_results (set_results (PyDict d) s);
              effects := [ http_post (request_of (conversation s)) ];
              outcome := inl Rerun |})
  /\ (forall s,
         PyStr.blank (clarify_response s) = false ->
         says post (clarify_response s) (PyStr content) ->
         advice post (clarify_response s) = inr (PyDict d)
         /\ clarify_click post s
            = {| final := set_step showing_results (set_results (PyDict d) s);
                 effects := [ http_post (request_of (clarify_response s)) ];
                 outcome := inl Rerun |}).
Proof.
  intros Hd Herr Hcl. split; intros s Hs Hsays.
  - pose proof (advice_decoded exc_str Hsays Hd) as Hv.
    split; [exact Hv|].
    rewrite (initial_click_returned _ _ Hs Hv).
    now rewrite initial_dispatch_result.
  - pose proof (advice_decoded exc_str Hsays Hd) as Hv.
    split; [exact Hv|].
    rewrite (clarify_click_returned _ _ Hs Hv).
    now rewrite clarify_dispatch_result.
Qed.

(** *** Validation *)

Lemma initial_click_blank post s :
  PyStr.blank (conversation s) = true ->
  initial_click post s
  = {| final := s;
       effects := [ st_warning (lit "Please enter your conversation first.") ];
       outcome := inr tt |}.
Proof.
  intros Hs. unfold initial_click, on_initial_button, bind, read. simpl.
  now rewrite truthy_strip, Hs.
Qed.

Lemma clarify_click_blank post s :
  PyStr.blank (clarify_response s) = true ->
  clarify_click post s
  = {| final := s;
       effects := [ st_warning (lit "Please provide your response first.") ];
       outcome := inr tt |}.
Proof.
  intros Hs. unfold clarify_click, on_clarify_button, bind, read. simpl.
  now rewrite truthy_strip, Hs.
Qed.

(** C6.  With a text that is empty or holds whitespace only, each of
    the two "Get Advice" buttons shows its warning and does nothing
    else: no request is posted, whatever the remote end would have
    answered, and the session is left as it was. *)
Theorem blank_submit_only_warns post s :
  (PyStr.blank (conversation s) = true ->
   initial_click post s
   = {| final := s;
        effects := [ st_warning (lit "Please enter your conversation first.") ];
        outcome := inr tt |})
  /\ (PyStr.blank (clarify_response s) = true ->
      clarify_click post s
      = {| final := s;
           effects := [ st_warning (lit "Please provide your response first.") ];
           outcome := inr tt |}).
Proof.
  split; intros Hs.
  - now apply initial_click_blank.
  - now apply clarify_click_blank.
Qed.

(** A whole run of the initial panel with the button pressed on such a
    text ends in the session a run without the press ends in: the text
    area's value bound to [conversation], and nothing else. *)
Lemma blank_submit_run post t s :
  PyStr.truthy API_KEY = true ->
  step s = initial ->
  PyStr.blank t = true ->
  forall display_results,
    final (main API_KEY json_dumps json_loads exc_str display_results post
             {| typed := t; pressed := Some initial_button |} s)
    = set_conversation t s
    /\ final (main API_KEY json_dumps json_loads exc_str display_results post
                {| typed := t; pressed := None |} s)
       = set_conversation t s
    /\ requests_of
         (effects (main API_KEY json_dumps json_loads exc_str display_results
                     post {| typed := t; pressed := Some initial_button |} s))
       = [].
Proof.
  intros Hkey Hstep Ht display_results.
  pose proof (@initial_click_blank post (set_conversation t s) Ht) as Hclick.
  unfold main, bind, read. rewrite Hkey. cbn [outcome final effects].
  rewrite Hstep.
  unfold initial_panel, bind, assign, when, clicked, ret.
  cbn [outcome final effects pressed typed].
  fold initial_click. rewrite Hclick. repeat split.
Qed.

(** *** Reset *)

Lemma emit_all_run page s :
  emit_all page s = {| final := s; effects := page; outcome := inr tt |}.
Proof.
  induction page as [|e page IH]; [reflexivity|].
  simpl. unfold bind, emit. simpl. now rewrite IH.
Qed.

(** C7.  From any session whatever, "Start Over" and "Start New
    Analysis" leave the session a new tab starts with: step
    ['initial'], empty [conversation], [clarify_question] and
    [clarify_response], and [results] set to [None]; both then ask for
    a rerun.  In the clarify panel this is what a run with "Start
    Over" pressed ends in, whatever was typed; in the results panel it
    is what a run with "Start New Analysis" pressed ends in, once the
    page above the button has been put up. *)
Theorem reset_buttons_restore_fresh_session :
  (forall s,
      final (on_start_over s) = fresh
      /\ outcome (on_start_over s) = inl Rerun
      /\ final (on_new_analysis s) = fresh
      /\ outcome (on_new_analysis s) = inl Rerun)
  /\ (forall post t s,
         final (clarify_panel API_KEY json_dumps json_loads exc_str post
                  {| typed := t; pressed := Some start_over |} s)
         = fresh)
  /\ (forall display_results page t s,
         display_results (results s) = inr page ->
         final (results_panel display_results
                  {| typed := t; pressed := Some new_analysis |} s)
         = fresh)
  /\ step fresh = initial
  /\ conversation fresh = []
  /\ clarify_question fresh = PyStr []
  /\ clarify_response fresh = []
  /\ results fresh = PyNone.
Proof.
  split; [repeat split|]. split; [reflexivity|]. split; [|repeat split].
  intros display_results page t s Hpage.
  unfold results_panel, bind, read, eval. simpl. rewrite Hpage. simpl.
  rewrite emit_all_run. reflexivity.
Qed.

(** *** What the clarify panel sends *)

Lemma initial_dispatch_sends_nothing v s :
  requests_of (effects (initial_dispatch v s)) = [].
Proof.
  unfold initial_dispatch, bind, eval.
  destruct (py_in (lit "error") v) as [e|[|]]; simpl; [reflexivity| |].
  - destruct (getitem v (lit "error")); reflexivity.
  - destruct (py_in (lit "clarify") v) as [e|[|]]; simpl;
      [reflexivity| |reflexivity].
    destruct (getitem v (lit "clarify")); reflexivity.
Qed.

Lemma clarify_dispatch_sends_nothing v s :
  requests_of (effects (clarify_dispatch v s)) = [].
Proof.
  unfold clarify_dispatch, bind, eval.
  destruct (py_in (lit "error") v) as [e|[|]]; simpl; [reflexivity| |].
  - destruct (getitem v (lit "error")); reflexivity.
  - destruct (py_in (lit "clarify") v) as [e|[|]]; simpl;
      [reflexivity| |reflexivity].
    destruct (getitem v (lit "clarify")); reflexivity.
Qed.

Lemma clarify_click_requests post s :
  PyStr.blank (clarify_response s) = false ->
  requests_of (effects (clarify_click post s))
  = [ request_of (clarify_response s) ].
Proof.
  intros Hs.
  destruct (advice post (clarify_response s)) as [e|v] eqn:E.
  - now rewrite (clarify_click_raised _ _ Hs E).
  - rewrite (clarify_click_returned _ _ Hs E). simpl.
    now rewrite clarify_dispatch_sends_nothing.
Qed.

(** C9, as the code has it.  When the response typed in the clarify
    panel has a character that is not whitespace, "Get Advice" posts
    exactly one request, whatever comes back, and the request is the
    one built from [clarify_response] alone: its user message is
    ["Conversation: "] followed by that text, and two sessions with
    the same [clarify_response] send the same request, whatever their
    [conversation], [clarify_question] and [results] are. *)
Theorem clarify_submit_sends_response_alone post s :
  PyStr.blank (clarify_response s) = false ->
  requests_of (effects (clarify_click post s))
  = [ request_of (clarify_response s) ]
  /\ data (request_of (clarify_response s))
     = json_dumps (payload (clarify_response s))
  /\ getitem (payload (clarify_response s)) (lit "messages")
     = inr (PyList
              [ PyDict [ (lit "role", PyStr (lit "system"));
                         (lit "content", PyStr system_prompt) ];
                PyDict [ (lit "role", PyStr (lit "user"));
                         (lit "content",
                          PyStr (lit "Conversation: "
                                 ++ clarify_response s)) ] ])
  /\ (forall s',
         clarify_response s' = clarify_response s ->
         requests_of (effects (clarify_click post s'))
         = requests_of (effects (clarify_click post s))).
Proof.
  intros Hs. split; [now apply clarify_click_requests|].
  split; [reflexivity|]. split; [reflexivity|].
  intros s' Hs'. rewrite !clarify_click_requests; congruence.
Qed.

(** *** The clarification loop *)

Lemma main_asks_again post i question s :
  PyStr.truthy API_KEY = true ->
  step s = clarify ->
  asks_again API_KEY json_dumps json_loads exc_str post i question ->
  forall display_results,
    final (main API_KEY json_dumps json_loads exc_str display_results
             post i s)
    = {| step := clarify;
         conversation := conversation s;
         clarify_question := question;
         clarify_response := [];
         results := results s |}.
Proof.
  intros Hkey Hstep (Hpress & Htyped & d & Hd & Herr & Hq) display_results.
  set (s1 := set_clarify_response (typed i) s).
  assert (Hclick : clarify_click post s1
                   = {| final := set_clarify_response []
                                   (set_clarify_question question s1);
                        effects := [ http_post (request_of (typed i)) ];
                        outcome := inl Rerun |}).
  { rewrite (@clarify_click_returned post s1 (PyDict d) Htyped Hd).
    now rewrite clarify_dispatch_clarify with (question := question). }
  unfold main, bind, read. rewrite Hkey. simpl. rewrite Hstep.
  unfold clarify_panel, bind, read, emit, assign, when, clicked. simpl.
  rewrite Hpress. fold s1. fold clarify_click. rewrite Hclick. simpl.
  unfold set_clarify_response, set_clarify_question, s1. simpl.
  now rewrite Hstep.
Qed.

(** C8.  With a credential set, from the clarify panel, let any number
    of rounds follow one another, each a response typed and "Get Advice" pressed, each
    answered by a dict asking a further question.  After every one of
    them the step is still ['clarify'], [clarify_question] is the
    question of that round, [clarify_response] is empty again, and
    [conversation] and [results] are what they were at the start.
    Nothing bounds the number of rounds. *)
Theorem clarify_loop display_results rounds s :
  PyStr.truthy API_KEY = true ->
  step s = clarify ->
  Forall (fun r => asks_again API_KEY json_dumps json_loads exc_str
                     (fst (fst r)) (snd (fst r)) (snd r)) rounds ->
  Forall2 (fun r s' =>
             s' = {| step := clarify;
                     conversation := conversation s;
                     clarify_question := snd r;
                     clarify_response := [];
                     results := results s |})
    rounds
    (sessions API_KEY json_dumps json_loads exc_str display_results
       (map fst rounds) s)
  /\ step (runs API_KEY json_dumps json_loads exc_str display_results
             (map fst rounds) s) = clarify.
Proof.
  intros Hkey Hstep Hrounds. revert s Hstep.
  induction Hrounds as [|[[post i] question] rounds Hr _ IH];
    intros s Hstep; cbn [map fst snd sessions runs].
  - split; [constructor|exact Hstep].
  - cbn [fst snd] in Hr.
    rewrite (@main_asks_again post i question s Hkey Hstep Hr display_results).
    match goal with
    | |- context [sessions _ _ _ _ _ _ ?s1] =>
        destruct (IH s1 eq_refl) as [Hall Hlast]
    end.
    split; [|exact Hlast].
    constructor; [reflexivity|exact Hall].
Qed.

End ControllerFacts.

(** ** The properties on the specification's examples *)

Lemma failed_status_is_error_example :
  Demo.on_initial_button (Demo.answers 500 (lit "Internal Server Error"))
    (Demo.typing (lit "I like art"))
  = {| final := Demo.typing (lit "I like art");
       effects :=
         [ http_post (request_for Demo.API_KEY Json.dumps (lit "I like art"));
           st_error (PyStr (lit "Request failed (500): Internal Server Error")) ];
       outcome := inr tt |}.
Proof.
  refine (proj1 (proj2 (proj2 (proj2
            (@failed_status_is_error
               Demo.API_KEY Json.dumps Json.loads Demo.exc_str
               (Demo.answers 500 (lit "Internal Server Error"))
               {| status_code := 500; text := lit "Internal Server Error" |}
               _))))
            (Demo.typing (lit "I like art")) _ _).
  - simpl. lia.
  - reflexivity.
  - reflexivity.
Defined.

Lemma reply_with_error_key_is_error_example :
  Demo.on_initial_button (Demo.sends Demo.error_and_clarify)
    (Demo.typing (lit "I like art"))
  = {| final := Demo.typing (lit "I like art");
       effects :=
         [ http_post (request_for Demo.API_KEY Json.dumps (lit "I like art"));
           st_error (PyStr (lit "quota exceeded")) ];
       outcome := inr tt |}.
Proof.
  refine (proj2 (proj1
            (@reply_with_error_key_is_error
               Demo.API_KEY Json.dumps Json.loads Demo.exc_str
               (Demo.sends Demo.error_and_clarify)
               (Json.dumps (PyDict Demo.error_and_clarify))
               Demo.error_and_clarify (PyStr (lit "quota exceeded")) _ _)
            (Demo.typing (lit "I like art")) _ _)).
  - vm_compute. reflexivity.
  - reflexivity.
  - reflexivity.
  - eexists. eexists. repeat split; vm_compute; reflexivity.
Defined.

Lemma clarify_reply_opens_clarify_panel_example :
  Demo.on_initial_button (Demo.answers 200 (Demo.completion Demo.clarify_reply))
    (Demo.typing (lit "I like art"))
  = {| final :=
         {| step := clarify;
            conversation := lit "I like art";
            clarify_question := PyStr (lit "What subjects do you enjoy?");
            clarify_response := [];
            results := PyNone |};
       effects :=
         [ http_post (request_for Demo.API_KEY Json.dumps (lit "I like art")) ];
       outcome := inl Rerun |}.
Proof.
  refine (proj2
            (@clarify_reply_opens_clarify_panel
               Demo.API_KEY Json.dumps Json.loads Demo.exc_str
               (Demo.answers 200 (Demo.completion Demo.clarify_reply))
               (Demo.typing (lit "I like art"))
               Demo.clarify_reply
               [ (lit "clarify", PyStr (lit "What subjects do you enjoy?")) ]
               (PyStr (lit "What subjects do you enjoy?")) _ _ _ _ _)).
  - reflexivity.
  - eexists. eexists. repeat split; vm_compute; reflexivity.
  - vm_compute. reflexivity.
  - reflexivity.
  - reflexivity.
Defined.

(** C4 as stated fails: a reply that decodes to a dict with a
    ["clarify"] key, and an ["error"] key besides, is shown as an error;
    the session stays in the initial panel and no question is stored. *)
Lemma clarify_reply_with_error_key_stays_initial :
  assistant_says Demo.API_KEY Json.dumps Json.loads
    (Demo.sends Demo.error_and_clarify) (lit "I like art")
    (PyStr (Json.dumps (PyDict Demo.error_and_clarify)))
  /\ Json.loads (Json.dumps (PyDict Demo.error_and_clarify))
     = inr (PyDict Demo.error_and_clarify)
  /\ Dict.get (lit "clarify") Demo.error_and_clarify
     = Some (PyStr (lit "What subjects do you enjoy?"))
  /\ final (Demo.on_initial_button (Demo.sends Demo.error_and_clarify)
              (Demo.typing (lit "I like art")))
     = Demo.typing (lit "I like art")
  /\ step (final (Demo.on_initial_button (Demo.sends Demo.error_and_clarify)
                    (Demo.typing (lit "I like art"))))
     <> clarify
  /\ clarify_question
       (final (Demo.on_initial_button (Demo.sends Demo.error_and_clarify)
                 (Demo.typing (lit "I like art"))))
     <> PyStr (lit "What subjects do you enjoy?").
Proof.
  split.
  { eexists. eexists. repeat split; vm_compute; reflexivity. }
  repeat split; vm_compute; try reflexivity; discriminate.
Qed.

Lemma result_reply_opens_results_panel_example :
  Demo.on_initial_button (Demo.answers 200 (Demo.completion Demo.result_reply))
    (Demo.typing (lit "I like art"))
  = {| final :=
         {| step := showing_results;
            conversation := lit "I like art";
            clarify_question := PyStr [];
            clarify_response := [];
            results := Demo.result_value |};
       effects :=
         [ http_post (request_for Demo.API_KEY Json.dumps (lit "I like art")) ];
       outcome := inl Rerun |}.
Proof.
  refine (proj2 (proj1
            (@result_reply_opens_results_panel
               Demo.API_KEY Json.dumps Json.loads Demo.exc_str
               (Demo.answers 200 (Demo.completion Demo.result_reply))
               Demo.result_reply
               [ (lit "interests", PyList [ PyStr (lit "Art") ]);
                 (lit "mapping", PyDict [ (lit "Art", PyStr (lit "Designer")) ]);
                 (lit "explanations",
                  PyDict [ (lit "Designer", PyStr (lit "Creative fit")) ]) ]
               _ _ _)
            (Demo.typing (lit "I like art")) _ _)).
  - vm_compute. reflexivity.
  - reflexivity.
  - reflexivity.
  - reflexivity.
  - eexists. eexists. repeat split; vm_compute; reflexivity.
Defined.

(** C5 as stated fails: a reply that decodes to a dict with the three
    keys of a result, and a ["clarify"] key besides, opens the clarify
    panel; with an ["error"] key besides, it is shown as an error.  In
    neither case is the dict stored in [results] or the results panel
    reached. *)
Lemma result_reply_with_other_key_is_no_result :
  (Demo.get_career_advice (Demo.sends Demo.result_and_clarify) (lit "I like art")
   = inr (PyDict Demo.result_and_clarify)
   /\ Dict.mem (lit "interests") Demo.result_and_clarify = true
   /\ Dict.mem (lit "mapping") Demo.result_and_clarify = true
   /\ Dict.mem (lit "explanations") Demo.result_and_clarify = true
   /\ step (final (Demo.on_initial_button (Demo.sends Demo.result_and_clarify)
                     (Demo.typing (lit "I like art"))))
      = clarify
   /\ results (final (Demo.on_initial_button (Demo.sends Demo.result_and_clarify)
                        (Demo.typing (lit "I like art"))))
      = PyNone)
  /\ (Demo.get_career_advice (Demo.sends Demo.result_and_error) (lit "I like art")
      = inr (PyDict Demo.result_and_error)
      /\ Dict.mem (lit "interests") Demo.result_and_error = true
      /\ Dict.mem (lit "mapping") Demo.result_and_error = true
      /\ Dict.mem (lit "explanations") Demo.result_and_error = true
      /\ step (final (Demo.on_initial_button (Demo.sends Demo.result_and_error)
                        (Demo.typing (lit "I like art"))))
         = initial
      /\ results (final (Demo.on_initial_button (Demo.sends Demo.result_and_error)
                           (Demo.typing (lit "I like art"))))
         = PyNone).
Proof.
  repeat split; vm_compute; reflexivity.
Qed.

Lemma blank_submit_only_warns_example :
  Demo.on_initial_button (Demo.answers 200 (Demo.completion Demo.result_reply))
    (Demo.typing (lit "   "))
  = {| final := Demo.typing (lit "   ");
       effects := [ st_warning (lit "Please enter your conversation first.") ];
       outcome := inr tt |}
  /\ Demo.on_clarify_button (Demo.answers 200 (Demo.completion Demo.result_reply))
       (Demo.answering [])
     = {| final := Demo.answering [];
          effects := [ st_warning (lit "Please provide your response first.") ];
          outcome := inr tt |}.
Proof.
  split.
  - refine (proj1 (@blank_submit_only_warns
                     Demo.API_KEY Json.dumps Json.loads Demo.exc_str
                     (Demo.answers 200 (Demo.completion Demo.result_reply))
                     (Demo.typing (lit "   "))) _).
    reflexivity.
  - refine (proj2 (@blank_submit_only_warns
                     Demo.API_KEY Json.dumps Json.loads Demo.exc_str
                     (Demo.answers 200 (Demo.completion Demo.result_reply))
                     (Demo.answering [])) _).
    reflexivity.
Defined.

Lemma clarify_submit_sends_response_alone_example :
  requests_of
    (effects (Demo.on_clarify_button
                (Demo.answers 200 (Demo.completion Demo.result_reply))
                (Demo.answering (lit "I enjoy painting"))))
  = [ request_for Demo.API_KEY Json.dumps (lit "I enjoy painting") ].
Proof.
  refine (proj1 (@clarify_submit_sends_response_alone
                   Demo.API_KEY Json.dumps Json.loads Demo.exc_str
                   (Demo.answers 200 (Demo.completion Demo.result_reply))
                   (Demo.answering (lit "I enjoy painting")) _)).
  reflexivity.
Defined.

(** C9 as stated fails: a response of one space is not empty, yet the
    button posts no request for it and only warns. *)
Lemma whitespace_response_sends_nothing :
  clarify_response (Demo.answering (lit " ")) <> []
  /\ requests_of
       (effects (Demo.on_clarify_button
                   (Demo.answers 200 (Demo.completion Demo.result_reply))
                   (Demo.answering (lit " "))))
     = []
  /\ effects (Demo.on_clarify_button
                (Demo.answers 200 (Demo.completion Demo.result_reply))
                (Demo.answering (lit " ")))
     = [ st_warning (lit "Please provide your response first.") ].
Proof.
  repeat split; vm_compute; try reflexivity; discriminate.
Qed.

Lemma clarify_loop_example :
  Forall2 (fun r s' =>
             s' = {| step := clarify;
                     conversation := lit "I am not sure";
                     clarify_question := snd r;
                     clarify_response := [];
                     results := PyNone |})
    Demo.two_rounds
    (sessions Demo.API_KEY Json.dumps Json.loads Demo.exc_str
       Demo.display_results (map fst Demo.two_rounds) (Demo.answering []))
  /\ step (runs Demo.API_KEY Json.dumps Json.loads Demo.exc_str
             Demo.display_results (map fst Demo.two_rounds) (Demo.answering []))
     = clarify.
Proof.
  refine (@clarify_loop Demo.API_KEY Json.dumps Json.loads Demo.exc_str
            Demo.display_results Demo.two_rounds (Demo.answering []) _ _ _).
  - reflexivity.
  - reflexivity.
  - repeat constructor; simpl;
      eexists; repeat split; vm_compute; reflexivity.
Defined.

Lemma reset_buttons_example :
  final (results_panel Demo.display_results
           (Demo.press new_analysis [])
           {| step := showing_results;
              conversation := lit "I like art";
              clarify_question := PyStr (lit "What subjects do you enjoy?");
              clarify_response := lit "Drawing";
              results := Demo.result_value |})
  = fresh.
Proof.
  refine (proj1 (proj2 (proj2
            (@reset_buttons_restore_fresh_session
               Demo.API_KEY Json.dumps Json.loads Demo.exc_str)))
            Demo.display_results [ st_rendered Demo.result_value ] [] _ _).
  reflexivity.
Defined.

(** * Further properties *)

(** ** The advice client: what comes back in every other case *)

Lemma getitem_raises x k e :
  getitem x k = inl e -> is_JSONDecodeError e = false.
Proof.
  destruct x; simpl; try (intros [= <-]; reflexivity).
  destruct (Dict.get k d); [discriminate|]. intros [= <-]. reflexivity.
Qed.

Lemma getitem0_raises x e :
  getitem0 x = inl e -> is_JSONDecodeError e = false.
Proof.
  destruct x as [| | | |[|c t]|[|v l]|d]; simpl;
    try discriminate; intros [= <-]; reflexivity.
Qed.

(** The subscripts of line 61 raise [KeyError], [IndexError] or
    [TypeError], never the decoding error. *)
Lemma message_content_raises body e :
  message_content body = inl e -> is_JSONDecodeError e = false.
Proof.
  unfold message_content, bind_exn.
  destruct (getitem body (lit "choices")) as [e1|choices] eqn:E1.
  { intros [= <-]. exact (getitem_raises _ _ E1). }
  destruct (getitem0 choices) as [e2|first] eqn:E2.
  { intros [= <-]. exact (getitem0_raises _ E2). }
  destruct (getitem first (lit "message")) as [e3|message] eqn:E3.
  { intros [= <-]. exact (getitem_raises _ _ E3). }
  apply getitem_raises.
Qed.

(** The call returned a dict: no exception left it, and it remains to
    refute that the decoding error was raised early. *)
Ltac returns_a_dict :=
  cbv beta iota; unfold on_exception;
  split; [intros ? H; discriminate H|];
  split; [intros [? H]; discriminate H|].

Section ClientMore.

Variable API_KEY : str.
Variable json_dumps : value -> str.
Variable json_loads : str -> exn + value.
Variable exc_str : exn -> str.

Let advice := get_career_advice API_KEY json_dumps json_loads exc_str.
Let says := assistant_says API_KEY json_dumps json_loads.
Let request_of := request_for API_KEY json_dumps.

(** A body that decodes but does not lead to a message content. *)
Lemma advice_of_shape post conversation r body e :
  post (request_of conversation) = inr r ->
  status_code r = 200%Z ->
  json_loads (text r) = inr body ->
  message_content body = inl e ->
  advice post conversation
  = inr (PyDict [ (lit "error", PyStr (lit "Error: " ++ exc_str e)) ]).
Proof.
  intros Hpost Hstatus Hbody He. unfold request_of in Hpost.
  unfold advice, get_career_advice, try_block, response_json.
  rewrite Hpost, Hstatus, Hbody. simpl. rewrite He.
  now rewrite (message_content_raises _ He).
Qed.

(** X1.  The only exception that ever leaves [get_career_advice] is
    the [UnboundLocalError] on [content], and it leaves exactly when the
    decoding error is raised before line 61 has assigned [content]: by
    [requests.post] itself, or by [response.json()] on a response of
    status 200.  Every other failure comes back as a dict. *)
Theorem only_unbound_content_leaves_the_call post conversation :
  (forall e,
      advice post conversation = inl e ->
      e = UnboundLocalError (lit "content"))
  /\ ((exists e, advice post conversation = inl e)
      <-> (post (request_of conversation) = inl JSONDecodeError
           \/ exists r,
               post (request_of conversation) = inr r
               /\ status_code r = 200%Z
               /\ json_loads (text r) = inl JSONDecodeError)).
Proof.
  unfold advice, request_of, get_career_advice, try_block, response_json.
  destruct (post (request_for API_KEY json_dumps conversation))
    as [e0|r] eqn:Hpost.
  - destruct (is_JSONDecodeError e0) eqn:He0.
    + destruct e0; try discriminate He0. simpl. split.
      * intros e [= <-]. reflexivity.
      * split; [intros _; now left|eauto].
    + returns_a_dict.
      intros [H|(r & H & _)]; [|discriminate H].
      injection H as ->. discriminate He0.
  - destruct (status_code r =? 200)%Z eqn:Hstatus; simpl.
    + apply Z.eqb_eq in Hstatus.
      destruct (json_loads (text r)) as [e1|body] eqn:Hbody; simpl.
      * destruct (is_JSONDecodeError e1) eqn:He1.
        -- destruct e1; try discriminate He1. simpl. split.
           ++ intros e [= <-]. reflexivity.
           ++ split; [intros _; right; exists r; auto|eauto].
        -- returns_a_dict.
           intros [H|(r' & H & _ & H')]; [discriminate H|].
           injection H as <-. rewrite Hbody in H'. injection H' as ->.
           discriminate He1.
      * destruct (message_content body) as [e2|content] eqn:Hc; simpl.
        -- rewrite (message_content_raises _ Hc).
           returns_a_dict.
           intros [H|(r' & H & _ & H')]; [discriminate H|].
           injection H as <-. rewrite Hbody in H'. discriminate H'.
        -- destruct content; simpl;
             try (destruct (json_loads s) as [e3|v]; simpl;
                  [destruct (is_JSONDecodeError e3)|]);
             returns_a_dict;
             (intros [H|(r' & H & _ & H')]; [discriminate H|];
              injection H as <-; rewrite Hbody in H'; discriminate H').
    + returns_a_dict.
      intros [H|(r' & H & H' & _)]; [discriminate H|].
      injection H as <-. apply Z.eqb_neq in Hstatus. contradiction.
Qed.

End ClientMore.

(** ** The controller on whatever the call returns *)

Section ControllerMore.

Variable API_KEY : str.
Variable json_dumps : value -> str.
Variable json_loads : str -> exn + value.
Variable exc_str : exn -> str.

Let advice := get_career_advice API_KEY json_dumps json_loads exc_str.
Let says := assistant_says API_KEY json_dumps json_loads.
Let request_of := request_for API_KEY json_dumps.
Let initial_click := on_initial_button API_KEY json_dumps json_loads exc_str.
Let clarify_click := on_clarify_button API_KEY json_dumps json_loads exc_str.

(** An error dict is shown and nothing else happens. *)
Lemma initial_click_error_dict post s msg :
  PyStr.blank (conversation s) = false ->
  advice post (conversation s) = inr (PyDict [ (lit "error", msg) ]) ->
  initial_click post s
  = {| final := s;
       effects := [ http_post (request_of (conversation s)); st_error msg ];
       outcome := inr tt |}.
Proof.
  intros Hs Hv. unfold initial_click, request_of.
  rewrite (@initial_click_returned API_KEY json_dumps json_loads exc_str
             post s _ Hs Hv).
  now rewrite initial_dispatch_error with (msg := msg).
Qed.

Lemma clarify_click_error_dict post s msg :
  PyStr.blank (clarify_response s) = false ->
  advice post (clarify_response s) = inr (PyDict [ (lit "error", msg) ]) ->
  clarify_click post s
  = {| final := s;
       effects := [ http_post (request_of (clarify_response s)); st_error msg ];
       outcome := inr tt |}.
Proof.
  intros Hs Hv. unfold clarify_click, request_of.
  rewrite (@clarify_click_returned API_KEY json_dumps json_loads exc_str
             post s _ Hs Hv).
  now rewrite clarify_dispatch_error with (msg := msg).
Qed.

(** X2.  When [requests.post] raises (the connection fails, say), the
    call returns [{"error": "Error: <str(e)>"}], and the button that
    made the call shows that message and leaves the session as it was:
    the user can press again. *)
Theorem transport_fault_is_error post e :
  is_JSONDecodeError e = false ->
  (forall conversation,
      post (request_of conversation) = inl e ->
      advice post conversation
      = inr (PyDict [ (lit "error", PyStr (lit "Error: " ++ exc_str e)) ]))
  /\ (forall s,
         PyStr.blank (conversation s) = false ->
         post (request_of (conversation s)) = inl e ->
         initial_click post s
         = {| final := s;
              effects := [ http_post (request_of (conversation s));
                           st_error (PyStr (lit "Error: " ++ exc_str e)) ];
              outcome := inr tt |})
  /\ (forall s,
         PyStr.blank (clarify_response s) = false ->
         post (request_of (clarify_response s)) = inl e ->
         clarify_click post s
         = {| final := s;
              effects := [ http_post (request_of (clarify_response s));
                           st_error (PyStr (lit "Error: " ++ exc_str e)) ];
              outcome := inr tt |}).
Proof.
  intros He.
  assert (Hadvice : forall conversation,
             post (request_of conversation) = inl e ->
             advice post conversation
             = inr (PyDict [ (lit "error", PyStr (lit "Error: " ++ exc_str e)) ])).
  { intros conversation Hpost. now apply advice_of_fault. }
  split; [exact Hadvice|]. split; intros s Hs Hpost.
  - apply initial_click_error_dict; auto.
  - apply clarify_click_error_dict; auto.
Qed.

(** X3.  A response of status 200 whose body decodes but does not lead
    to [choices[0].message.content] comes back as an error dict carrying
    the exception of the failed subscript: [KeyError] on ["choices"] when
    the body is a dict without that key, [IndexError] when the list of
    choices is empty.  The button that made the call shows the message
    and leaves the session as it was. *)
Theorem malformed_body_is_error post r body e :
  status_code r = 200%Z ->
  json_loads (text r) = inr body ->
  message_content body = inl e ->
  (forall conversation,
      post (request_of conversation) = inr r ->
      advice post conversation
      = inr (PyDict [ (lit "error", PyStr (lit "Error: " ++ exc_str e)) ]))
  /\ (forall s,
         PyStr.blank (conversation s) = false ->
         post (request_of (conversation s)) = inr r ->
         initial_click post s
         = {| final := s;
              effects := [ http_post (request_of (conversation s));
                           st_error (PyStr (lit "Error: " ++ exc_str e)) ];
              outcome := inr tt |})
  /\ (forall d,
         body = PyDict d -> Dict.get (lit "choices") d = None ->
         e = KeyError (PyStr (lit "choices")))
  /\ (forall d,
         body = PyDict d -> Dict.get (lit "choices") d = Some (PyList []) ->
         e = IndexError).
Proof.
  intros Hstatus Hbody He.
  assert (Hadvice : forall conversation,
             post (request_of conversation) = inr r ->
             advice post conversation
             = inr (PyDict [ (lit "error", PyStr (lit "Error: " ++ exc_str e)) ])).
  { intros conversation Hpost.
    exact (@advice_of_shape API_KEY json_dumps json_loads exc_str
             post conversation r body e Hpost Hstatus Hbody He). }
  split; [exact Hadvice|]. split.
  { intros s Hs Hpost. apply initial_click_error_dict; auto. }
  split; intros d -> Hd; unfold message_content, bind_exn, getitem in He;
    rewrite Hd in He; simpl in He; congruence.
Qed.

(** X4.  When the assistant's message content is not a text ([null],
    say), [json.loads] raises [TypeError] and the call returns the error
    dict for it; when it is a text on which the decoder raises anything
    but the decoding error (the recursion limit, say), the call returns
    the error dict for that exception.  Neither is taken for a
    clarifying question. *)
Theorem undecodable_content_is_error post conversation content :
  says post conversation content ->
  ((forall t, content <> PyStr t) ->
   advice post conversation
   = inr (PyDict [ (lit "error", PyStr (lit "Error: " ++ exc_str TypeError)) ]))
  /\ (forall t e,
         content = PyStr t ->
         json_loads t = inl e ->
         is_JSONDecodeError e = false ->
         advice post conversation
         = inr (PyDict [ (lit "error", PyStr (lit "Error: " ++ exc_str e)) ])).
Proof.
  intros Hsays.
  pose proof (@advice_of_content API_KEY json_dumps json_loads exc_str
                post conversation content Hsays) as E.
  split.
  - intros Hnot. unfold advice. rewrite E.
    destruct content; try reflexivity. now elim (Hnot s).
  - intros t e -> Ht He. unfold advice. rewrite E. simpl.
    now rewrite Ht, He.
Qed.

(** *** Replies that are not dicts *)

(** The two tests on a value that is no dict. *)
Lemma getitem_no_dict v k :
  (forall d, v <> PyDict d) -> getitem v k = inl TypeError.
Proof. intros H. destruct v; try reflexivity. now elim (H d). Qed.

Lemma initial_dispatch_no_dict v s :
  (forall d, v <> PyDict d) ->
  py_in (lit "error") v <> inr false
  \/ py_in (lit "clarify") v <> inr false ->
  initial_dispatch v s
  = {| final := s; effects := []; outcome := inl (Raise TypeError) |}.
Proof.
  intros Hv Hin. unfold initial_dispatch, bind, eval.
  rewrite !(getitem_no_dict _ Hv).
  destruct v; try reflexivity; try (now elim (Hv d)); simpl in *;
    repeat match goal with
      | |- context [PyStr.contains ?a ?b] => destruct (PyStr.contains a b)
      | |- context [existsb ?f ?l] => destruct (existsb f l)
      end; simpl; try reflexivity; destruct Hin as [H|H]; now elim H.
Qed.

Lemma clarify_dispatch_no_dict v s :
  (forall d, v <> PyDict d) ->
  py_in (lit "error") v <> inr false
  \/ py_in (lit "clarify") v <> inr false ->
  clarify_dispatch v s
  = {| final := s; effects := []; outcome := inl (Raise TypeError) |}.
Proof.
  intros Hv Hin. unfold clarify_dispatch, bind, eval.
  rewrite !(getitem_no_dict _ Hv).
  destruct v; try reflexivity; try (now elim (Hv d)); simpl in *;
    repeat match goal with
      | |- context [PyStr.contains ?a ?b] => destruct (PyStr.contains a b)
      | |- context [existsb ?f ?l] => destruct (existsb f l)
      end; simpl; try reflexivity; destruct Hin as [H|H]; now elim H.
Qed.

(** The last branch, for any value the two tests let through. *)
Lemma initial_dispatch_stored v s :
  py_in (lit "error") v = inr false ->
  py_in (lit "clarify") v = inr false ->
  initial_dispatch v s
  = {| final := set_step showing_results (set_results v s);
       effects := [];
       outcome := inl Rerun |}.
Proof.
  intros He Hc. unfold initial_dispatch, bind, eval.
  rewrite He. simpl. rewrite Hc. reflexivity.
Qed.

Lemma clarify_dispatch_stored v s :
  py_in (lit "error") v = inr false ->
  py_in (lit "clarify") v = inr false ->
  clarify_dispatch v s
  = {| final := set_step showing_results (set_results v s);
       effects := [];
       outcome := inl Rerun |}.
Proof.
  intros He Hc. unfold clarify_dispatch, bind, eval.
  rewrite He. simpl. rewrite Hc. reflexivity.
Qed.

(** X5.  When the assistant's message decodes to something that is
    not a dict and the test for ["error"] or for ["clarify"] does not
    come out false on it, the button raises [TypeError]: on a number, a
    boolean or [null] because the test itself cannot be made, on a text
    or a list that contains the word because the value cannot be
    subscripted with it.  One request was sent, nothing is shown by the
    handler, and the session is as it was. *)
Theorem reply_that_is_no_dict_raises post v :
  (forall d, v <> PyDict d) ->
  py_in (lit "error") v <> inr false
  \/ py_in (lit "clarify") v <> inr false ->
  (forall s,
      PyStr.blank (conversation s) = false ->
      advice post (conversation s) = inr v ->
      initial_click post s
      = {| final := s;
           effects := [ http_post (request_of (conversation s)) ];
           outcome := inl (Raise TypeError) |})
  /\ (forall s,
         PyStr.blank (clarify_response s) = false ->
         advice post (clarify_response s) = inr v ->
         clarify_click post s
         = {| final := s;
              effects := [ http_post (request_of (clarify_response s)) ];
              outcome := inl (Raise TypeError) |}).
Proof.
  intros Hv Hin. split; intros s Hs Hadvice.
  - unfold initial_click, request_of.
    rewrite (@initial_click_returned API_KEY json_dumps json_loads exc_str
               post s v Hs Hadvice).
    now rewrite (initial_dispatch_no_dict s Hv Hin).
  - unfold clarify_click, request_of.
    rewrite (@clarify_click_returned API_KEY json_dumps json_loads exc_str
               post s v Hs Hadvice).
    now rewrite (clarify_dispatch_no_dict s Hv Hin).
Qed.

(** X6.  A text or a list that contains neither the word ["error"] nor
    the word ["clarify"] passes both tests, so the button stores it in
    [results] as it is and opens the results panel, although it has
    none of the fields of a result. *)
Theorem text_or_list_reply_is_stored post v :
  (exists t, v = PyStr t) \/ (exists l, v = PyList l) ->
  py_in (lit "error") v = inr false ->
  py_in (lit "clarify") v = inr false ->
  (forall s,
      PyStr.blank (conversation s) = false ->
      advice post (conversation s) = inr v ->
      initial_click post s
      = {| final := set_step showing_results (set_results v s);
           effects := [ http_post (request_of (conversation s)) ];
           outcome := inl Rerun |})
  /\ (forall s,
         PyStr.blank (clarify_response s) = false ->
         advice post (clarify_response s) = inr v ->
         clarify_click post s
         = {| final := set_step showing_results (set_results v s);
              effects := [ http_post (request_of (clarify_response s)) ];
              outcome := inl Rerun |}).
Proof.
  intros _ He Hc. split; intros s Hs Hadvice.
  - unfold initial_click, request_of.
    rewrite (@initial_click_returned API_KEY json_dumps json_loads exc_str
               post s v Hs Hadvice).
    now rewrite (@initial_dispatch_stored v s He Hc).
  - unfold clarify_click, request_of.
    rewrite (@clarify_click_returned API_KEY json_dumps json_loads exc_str
               post s v Hs Hadvice).
    now rewrite (@clarify_dispatch_stored v s He Hc).
Qed.

(** *** What a button can do to the session *)

Lemma initial_dispatch_frame v s :
  (final (initial_dispatch v s) = s
   /\ outcome (initial_dispatch v s) <> inl Rerun)
  \/ (outcome (initial_dispatch v s) = inl Rerun
      /\ ((exists question,
              final (initial_dispatch v s)
              = set_step clarify (set_clarify_question question s))
          \/ (py_in (lit "error") v = inr false
              /\ py_in (lit "clarify") v = inr false
              /\ final (initial_dispatch v s)
                 = set_step showing_results (set_results v s)))).
Proof.
  unfold initial_dispatch, bind, eval.
  destruct (py_in (lit "error") v) as [e|[|]]; simpl.
  - left. split; [reflexivity|discriminate].
  - destruct (getitem v (lit "error")); simpl;
      left; (split; [reflexivity|discriminate]).
  - destruct (py_in (lit "clarify") v) as [e|[|]]; simpl.
    + left. split; [reflexivity|discriminate].
    + destruct (getitem v (lit "clarify")) as [e|question]; simpl.
      * left. split; [reflexivity|discriminate].
      * right. split; [reflexivity|]. left. now exists question.
    + right. split; [reflexivity|]. right. auto.
Qed.

Lemma clarify_dispatch_frame v s :
  (final (clarify_dispatch v s) = s
   /\ outcome (clarify_dispatch v s) <> inl Rerun)
  \/ (outcome (clarify_dispatch v s) = inl Rerun
      /\ ((exists question,
              final (clarify_dispatch v s)
              = set_clarify_response [] (set_clarify_question question s))
          \/ (py_in (lit "error") v = inr false
              /\ py_in (lit "clarify") v = inr false
              /\ final (clarify_dispatch v s)
                 = set_step showing_results (set_results v s)))).
Proof.
  unfold clarify_dispatch, bind, eval.
  destruct (py_in (lit "error") v) as [e|[|]]; simpl.
  - left. split; [reflexivity|discriminate].
  - destruct (getitem v (lit "error")); simpl;
      left; (split; [reflexivity|discriminate]).
  - destruct (py_in (lit "clarify") v) as [e|[|]]; simpl.
    + left. split; [reflexivity|discriminate].
    + destruct (getitem v (lit "clarify")) as [e|question]; simpl.
      * left. split; [reflexivity|discriminate].
      * right. split; [reflexivity|]. left. now exists question.
    + right. split; [reflexivity|]. right. auto.
Qed.

Lemma initial_click_frame post s :
  (final (initial_click post s) = s
   /\ outcome (initial_click post s) <> inl Rerun)
  \/ (outcome (initial_click post s) = inl Rerun
      /\ ((exists question,
              final (initial_click post s)
              = set_step clarify (set_clarify_question question s))
          \/ (exists v,
                 py_in (lit "error") v = inr false
                 /\ py_in (lit "clarify") v = inr false
                 /\ final (initial_click post s)
                    = set_step showing_results (set_results v s)))).
Proof.
  destruct (PyStr.blank (conversation s)) eqn:Hs.
  { unfold initial_click.
    rewrite (@initial_click_blank API_KEY json_dumps json_loads exc_str
               post s Hs).
    left. split; [reflexivity|discriminate]. }
  destruct (advice post (conversation s)) as [e|v] eqn:Hv.
  { unfold initial_click.
    rewrite (@initial_click_raised API_KEY json_dumps json_loads exc_str
               post s e Hs Hv).
    left. split; [reflexivity|discriminate]. }
  unfold initial_click.
  rewrite (@initial_click_returned API_KEY json_dumps json_loads exc_str
             post s v Hs Hv).
  cbn [final outcome].
  destruct (initial_dispatch_frame v s) as [H|(Hr & [H|H])];
    [now left|right; split; [exact Hr|now left]|].
  right. split; [exact Hr|]. right. now exists v.
Qed.

Lemma clarify_click_frame post s :
  (final (clarify_click post s) = s
   /\ outcome (clarify_click post s) <> inl Rerun)
  \/ (outcome (clarify_click post s) = inl Rerun
      /\ ((exists question,
              final (clarify_click post s)
              = set_clarify_response [] (set_clarify_question question s))
          \/ (exists v,
                 py_in (lit "error") v = inr false
                 /\ py_in (lit "clarify") v = inr false
                 /\ final (clarify_click post s)
                    = set_step showing_results (set_results v s)))).
Proof.
  destruct (PyStr.blank (clarify_response s)) eqn:Hs.
  { unfold clarify_click.
    rewrite (@clarify_click_blank API_KEY json_dumps json_loads exc_str
               post s Hs).
    left. split; [reflexivity|discriminate]. }
  destruct (advice post (clarify_response s)) as [e|v] eqn:Hv.
  { unfold clarify_click.
    rewrite (@clarify_click_raised API_KEY json_dumps json_loads exc_str
               post s e Hs Hv).
    left. split; [reflexivity|discriminate]. }
  unfold clarify_click.
  rewrite (@clarify_click_returned API_KEY json_dumps json_loads exc_str
             post s v Hs Hv).
  cbn [final outcome].
  destruct (clarify_dispatch_frame v s) as [H|(Hr & [H|H])];
    [now left|right; split; [exact Hr|now left]|].
  right. split; [exact Hr|]. right. now exists v.
Qed.

(** X7.  Whatever the remote end does, a "Get Advice" button changes
    the session only on a path that ends in [st.rerun()].  When it ends
    any other way (a warning, an error shown, an exception nothing
    catches) the session is exactly as before; when it asks for a rerun
    it has changed [clarify_question] and the step (in the clarify panel
    [clarify_question] and [clarify_response]), or [results] and the
    step, and nothing else: [conversation] is never touched. *)
Theorem buttons_change_the_session_only_with_rerun post s :
  ((final (initial_click post s) = s
    /\ outcome (initial_click post s) <> inl Rerun)
   \/ (outcome (initial_click post s) = inl Rerun
       /\ ((exists question,
               final (initial_click post s)
               = set_step clarify (set_clarify_question question s))
           \/ (exists v,
                  final (initial_click post s)
                  = set_step showing_results (set_results v s)))))
  /\ ((final (clarify_click post s) = s
       /\ outcome (clarify_click post s) <> inl Rerun)
      \/ (outcome (clarify_click post s) = inl Rerun
          /\ ((exists question,
                  final (clarify_click post s)
                  = set_clarify_response [] (set_clarify_question question s))
              \/ (exists v,
                     final (clarify_click post s)
                     = set_step showing_results (set_results v s)))))
  /\ conversation (final (initial_click post s)) = conversation s
  /\ conversation (final (clarify_click post s)) = conversation s.
Proof.
  pose proof (initial_click_frame post s) as Hi.
  pose proof (clarify_click_frame post s) as Hc.
  split; [|split; [|split]].
  - destruct Hi as [H|(Hr & [H|(v & _ & _ & H)])];
      [now left|right; split; [exact Hr|now left]|].
    right. split; [exact Hr|]. right. now exists v.
  - destruct Hc as [H|(Hr & [H|(v & _ & _ & H)])];
      [now left|right; split; [exact Hr|now left]|].
    right. split; [exact Hr|]. right. now exists v.
  - destruct Hi as [(H & _)|(_ & [(q & H)|(v & _ & _ & H)])];
      rewrite H; reflexivity.
  - destruct Hc as [(H & _)|(_ & [(q & H)|(v & _ & _ & H)])];
      rewrite H; reflexivity.
Qed.

(** *** Whole runs of the script *)

Lemma one_button_at_a_time b b' i :
  clicked b i = true -> clicked b' i = true -> b = b'.
Proof.
  unfold clicked. destruct (pressed i) as [[]|], b, b';
    try discriminate; reflexivity.
Qed.

Lemma requests_of_app l l' :
  requests_of (l ++ l') = requests_of l ++ requests_of l'.
Proof.
  induction l as [|[] l IH]; simpl; rewrite ?IH; reflexivity.
Qed.

Lemma initial_click_requests post s :
  requests_of (effects (initial_click post s))
  = if PyStr.blank (conversation s) then []
    else [ request_of (conversation s) ].
Proof.
  destruct (PyStr.blank (conversation s)) eqn:Hs; unfold initial_click.
  - now rewrite (@initial_click_blank API_KEY json_dumps json_loads exc_str
                   post s Hs).
  - destruct (advice post (conversation s)) as [e|v] eqn:E.
    + now rewrite (@initial_click_raised API_KEY json_dumps json_loads exc_str
                     post s e Hs E).
    + rewrite (@initial_click_returned API_KEY json_dumps json_loads exc_str
                 post s v Hs E). simpl.
      now rewrite initial_dispatch_sends_nothing.
Qed.

Lemma clarify_click_requests_all post s :
  requests_of (effects (clarify_click post s))
  = if PyStr.blank (clarify_response s) then []
    else [ request_of (clarify_response s) ].
Proof.
  destruct (PyStr.blank (clarify_response s)) eqn:Hs; unfold clarify_click.
  - now rewrite (@clarify_click_blank API_KEY json_dumps json_loads exc_str
                   post s Hs).
  - now apply clarify_click_requests.
Qed.

(** The session a run of the script ends in, panel by panel. *)
Lemma main_final display_results post i s :
  final (main API_KEY json_dumps json_loads exc_str display_results post i s)
  = if PyStr.truthy API_KEY then
      match step s with
      | initial =>
          if clicked initial_button i then
            final (initial_click post (set_conversation (typed i) s))
          else set_conversation (typed i) s
      | clarify =>
          if clicked clarify_button i then
            final (clarify_click post (set_clarify_response (typed i) s))
          else if clicked start_over i then fresh
          else set_clarify_response (typed i) s
      | showing_results =>
          match display_results (results s) with
          | inl _ => s
          | inr _ => if clicked new_analysis i then fresh else s
          end
      end
    else s.
Proof.
  unfold main. destruct (PyStr.truthy API_KEY); [|reflexivity].
  unfold bind at 1. unfold read at 1. cbn [final outcome effects].
  destruct (step s) eqn:Hstep.
  - unfold initial_panel, bind, assign, when, ret. cbn [final outcome effects].
    destruct (clicked initial_button i); reflexivity.
  - unfold clarify_panel, bind, read, emit, assign, when, ret.
    cbn [final outcome effects]. fold clarify_click.
    destruct (clicked clarify_button i) eqn:Hc.
    + assert (Hso : clicked start_over i = false).
      { destruct (clicked start_over i) eqn:Hso; [|reflexivity].
        discriminate (one_button_at_a_time _ _ _ Hc Hso). }
      rewrite Hso.
      destruct (clarify_click post (set_clarify_response (typed i) s))
        as [f e [sig|[]]]; reflexivity.
    + cbn [final outcome effects].
      destruct (clicked start_over i); reflexivity.
  - unfold results_panel, bind, read, eval, when, ret, stop.
    cbn [final outcome effects].
    destruct (display_results (results s)) as [e|page];
      cbn [final outcome effects]; [reflexivity|].
    rewrite emit_all_run. cbn [final outcome effects].
    destruct (clicked new_analysis i); reflexivity.
Qed.

(** The requests a run of the script sends, panel by panel. *)
Lemma main_requests display_results post i s :
  (forall v page, display_results v = inr page -> requests_of page = []) ->
  requests_of
    (effects (main API_KEY json_dumps json_loads exc_str display_results
                post i s))
  = if PyStr.truthy API_KEY
       && negb (PyStr.blank (typed i))
       && match step s with
          | initial => clicked initial_button i
          | clarify => clicked clarify_button i
          | showing_results => false
          end
    then [ request_of (typed i) ]
    else [].
Proof.
  intros Hpage.
  unfold main. destruct (PyStr.truthy API_KEY); [|reflexivity].
  unfold bind at 1. unfold read. cbn [final outcome effects].
  rewrite andb_true_l.
  destruct (step s) eqn:Hstep.
  - unfold initial_panel, bind, assign, when, ret. cbn [final outcome effects].
    destruct (clicked initial_button i).
    + fold initial_click. cbn [app]. rewrite initial_click_requests.
      cbn [conversation set_conversation]. rewrite andb_true_r.
      destruct (PyStr.blank (typed i)); reflexivity.
    + now rewrite andb_false_r.
  - unfold clarify_panel, bind, read, emit, assign, when, ret.
    cbn [final outcome effects]. fold clarify_click.
    destruct (clicked clarify_button i) eqn:Hc.
    + assert (Hso : clicked start_over i = false).
      { destruct (clicked start_over i) eqn:Hso; [|reflexivity].
        discriminate (one_button_at_a_time _ _ _ Hc Hso). }
      rewrite Hso. rewrite andb_true_r.
      pose proof (clarify_click_requests_all post
                    (set_clarify_response (typed i) s)) as Hreq.
      cbn [clarify_response set_clarify_response] in Hreq.
      destruct (clarify_click post (set_clarify_response (typed i) s))
        as [f e [sig|[]]]; cbn [final outcome effects] in *;
        cbn [app requests_of]; rewrite ?app_nil_r, Hreq;
        destruct (PyStr.blank (typed i)); reflexivity.
    + rewrite andb_false_r. cbn [final outcome effects].
      destruct (clicked start_over i); reflexivity.
  - rewrite andb_false_r.
    unfold results_panel, bind, read, eval, when, ret, stop.
    cbn [final outcome effects].
    destruct (display_results (results s)) as [e|page] eqn:Hd;
      cbn [final outcome effects]; [reflexivity|].
    rewrite emit_all_run. cbn [final outcome effects].
    rewrite !requests_of_app, (Hpage _ _ Hd).
    destruct (clicked new_analysis i); reflexivity.
Qed.

(** X8.  A run of the script sends at most one request.  It sends one
    exactly when a credential is set, the text typed is not blank, and
    the button pressed is the "Get Advice" of the panel on the page; the
    request is then the one built from the text typed in that very run.
    The results panel, the reset buttons and a run with no button
    pressed send nothing.  (The page the results panel puts up is taken
    to hold no request of its own.) *)
Theorem one_request_per_run display_results post i s :
  (forall v page, display_results v = inr page -> requests_of page = []) ->
  (List.length
     (requests_of
        (effects (main API_KEY json_dumps json_loads exc_str display_results
                    post i s))) <= 1)%nat
  /\ requests_of
       (effects (main API_KEY json_dumps json_loads exc_str display_results
                   post i s))
     = if PyStr.truthy API_KEY
          && negb (PyStr.blank (typed i))
          && match step s with
             | initial => clicked initial_button i
             | clarify => clicked clarify_button i
             | showing_results => false
             end
       then [ request_of (typed i) ]
       else [].
Proof.
  intros Hpage. rewrite (@main_requests display_results post i s Hpage).
  split; [|reflexivity].
  destruct (PyStr.truthy API_KEY && negb (PyStr.blank (typed i))
            && match step s with
               | initial => clicked initial_button i
               | clarify => clicked clarify_button i
               | showing_results => false
               end); simpl; lia.
Qed.

(** *** Sessions the script can reach *)

Lemma main_consistent display_results post i s :
  consistent s ->
  consistent
    (final (main API_KEY json_dumps json_loads exc_str display_results
              post i s)).
Proof.
  intros Hs. rewrite main_final.
  destruct (PyStr.truthy API_KEY); [|exact Hs].
  unfold consistent in Hs. destruct (step s) eqn:Hstep.
  - destruct Hs as (Hq & Hr & Hres).
    destruct (clicked initial_button i).
    + destruct (initial_click_frame post (set_conversation (typed i) s))
        as [(H & _)|(_ & [(q & H)|(v & He & Hc & H)])]; rewrite H;
        unfold consistent; cbn; rewrite ?Hstep; auto.
    + unfold consistent. cbn. rewrite Hstep. auto.
  - destruct (clicked clarify_button i).
    + destruct (clarify_click_frame post (set_clarify_response (typed i) s))
        as [(H & _)|(_ & [(q & H)|(v & He & Hc & H)])]; rewrite H;
        unfold consistent; cbn; rewrite ?Hstep; auto.
    + destruct (clicked start_over i).
      * unfold consistent. cbn. auto.
      * unfold consistent. cbn. rewrite Hstep. auto.
  - destruct (display_results (results s)) as [e|page].
    + unfold consistent. rewrite Hstep. exact Hs.
    + destruct (clicked new_analysis i).
      * unfold consistent. cbn. auto.
      * unfold consistent. rewrite Hstep. exact Hs.
Qed.

(** X9.  Start from the session of a new tab and let any runs follow,
    with any interactions and any answers from the network.  Then the
    session is always consistent: [results] holds something exactly
    when the step is ['results'], and what it holds passed both the
    test for ["error"] and the test for ["clarify"]; in the initial
    panel [clarify_question] and [clarify_response] are empty. *)
Theorem reachable_sessions_are_consistent display_results l :
  consistent
    (runs API_KEY json_dumps json_loads exc_str display_results l fresh)
  /\ (results (runs API_KEY json_dumps json_loads exc_str display_results
                 l fresh) = PyNone
      <-> step (runs API_KEY json_dumps json_loads exc_str display_results
                  l fresh) <> showing_results).
Proof.
  assert (H : forall s, consistent s ->
              consistent (runs API_KEY json_dumps json_loads exc_str
                            display_results l s)).
  { induction l as [|[post i] l IH]; intros s Hs; [exact Hs|].
    cbn [runs]. apply IH. now apply main_consistent. }
  assert (Hfresh : consistent fresh) by (unfold consistent; cbn; auto).
  specialize (H fresh Hfresh). split; [exact H|].
  unfold consistent in H.
  destruct (step (runs API_KEY json_dumps json_loads exc_str display_results
                    l fresh)).
  - destruct H as (_ & _ & ->). split; [discriminate|reflexivity].
  - rewrite H. split; [discriminate|reflexivity].
  - destruct H as (H & _). split.
    + intros E. rewrite E in H. discriminate H.
    + intros E. now elim E.
Qed.

(** X10.  A run of the results panel either leaves the session exactly
    as it was or, with "Start New Analysis" pressed and the page put up,
    resets it to the session of a new tab.  It never opens the clarify
    panel and never alters the stored result in place. *)
Theorem results_panel_keeps_or_resets display_results post i s :
  step s = showing_results ->
  (final (main API_KEY json_dumps json_loads exc_str display_results post i s)
   = s
   \/ final (main API_KEY json_dumps json_loads exc_str display_results
               post i s) = fresh)
  /\ (final (main API_KEY json_dumps json_loads exc_str display_results
               post i s) = fresh ->
      clicked new_analysis i = true
      /\ exists page, display_results (results s) = inr page).
Proof.
  intros Hstep. rewrite main_final, Hstep.
  assert (Hne : s <> fresh).
  { intros E. rewrite E in Hstep. discriminate Hstep. }
  destruct (PyStr.truthy API_KEY); [|split; [now left|intros E; now elim Hne]].
  destruct (display_results (results s)) as [e|page];
    [split; [now left|intros E; now elim Hne]|].
  destruct (clicked new_analysis i).
  - split; [now right|]. intros _. split; [reflexivity|now exists page].
  - split; [now left|intros E; now elim Hne].
Qed.

End ControllerMore.

(** ** The results page *)

Section PageFacts.

Variable py_repr : value -> str.
Variable float_truthy : str -> bool.

Let render := render_results py_repr float_truthy.
Let shown := displayed py_repr float_truthy.

Lemma block_on_dict key title body d :
  block key title body (PyDict d) = shows (block_of key title body d).
Proof.
  unfold block, block_of, py_in, getitem, Dict.mem.
  destruct (Dict.get key d); reflexivity.
Qed.

(** On a text or a list a block shows nothing when the word is absent
    and is cut short by [TypeError], after its subheader, when the word
    is there. *)
Lemma block_on_text_or_list key title body v :
  (exists t, v = PyStr t) \/ (exists l, v = PyList l) ->
  exists found,
    py_in key v = inr found
    /\ block key title body v
       = if found then ([ st_subheader title ], Some TypeError) else shows [].
Proof.
  intros [(t & ->)|(l & ->)]; unfold block; simpl.
  - exists (PyStr.contains t key). split; [reflexivity|].
    destruct (PyStr.contains t key); reflexivity.
  - eexists. split; [reflexivity|].
    match goal with |- context [existsb ?f ?l] => destruct (existsb f l) end;
      reflexivity.
Qed.

Lemma render_dict d :
  render (PyDict d)
  = match d with
    | [] => shows []
    | _ :: _ =>
        shows
          (st_success ([9989%N] ++ lit " Analysis Complete!")
           :: block_of (lit "interests")
                ([127919%N] ++ lit " Extracted Interests")
                (interests_body py_repr) d
           ++ block_of (lit "mapping")
                ([128506%N; 65039%N] ++ lit " Career Path Mapping")
                (mapping_body py_repr) d
           ++ block_of (lit "explanations")
                ([128161%N] ++ lit " Explanations") explanations_body d)
    end.
Proof.
  unfold render, render_results. rewrite !block_on_dict.
  destruct d; reflexivity.
Qed.

Lemma numbered_nth i l k x :
  nth_error l k = Some x ->
  nth_error (numbered py_repr i l) k
  = Some (st_write (PyStr.of_Z (i + Z.of_nat k) ++ lit ". "
                    ++ format_value py_repr x)).
Proof.
  revert i k. induction l as [|y l IH]; intros i [|k] H; try discriminate.
  - injection H as ->. simpl. now rewrite Z.add_0_r.
  - cbn [numbered nth_error]. rewrite (IH (i + 1)%Z k H).
    now replace (i + Z.of_nat (S k))%Z with (i + 1 + Z.of_nat k)%Z by lia.
Qed.

Lemma numbered_length i l :
  List.length (numbered py_repr i l) = List.length l.
Proof.
  revert i. induction l as [|y l IH]; intros i; simpl; [reflexivity|].
  now rewrite IH.
Qed.

(** X11.  When the stored result is a dict, the page is never cut
    short, and it is made of the banner and then, in this fixed order
    whatever the order of the keys in the reply, the blocks of
    ["interests"], ["mapping"] and ["explanations"], each present
    exactly when its key is: an absent field leaves no trace, not even
    its subheader.  An empty dict shows nothing at all, the banner
    included. *)
Theorem dict_results_page d :
  snd (render (PyDict d)) = None
  /\ render (PyDict []) = ([], None)
  /\ (d <> [] ->
      fst (render (PyDict d))
      = st_success ([9989%N] ++ lit " Analysis Complete!")
        :: block_of (lit "interests")
             ([127919%N] ++ lit " Extracted Interests")
             (interests_body py_repr) d
        ++ block_of (lit "mapping")
             ([128506%N; 65039%N] ++ lit " Career Path Mapping")
             (mapping_body py_repr) d
        ++ block_of (lit "explanations")
             ([128161%N] ++ lit " Explanations") explanations_body d)
  /\ (forall key title body,
         Dict.mem key d = false -> block_of key title body d = []).
Proof.
  split; [|split; [|split]].
  - rewrite render_dict. destruct d; reflexivity.
  - reflexivity.
  - intros Hd. rewrite render_dict. destruct d; [now elim Hd|reflexivity].
  - intros key title body H. unfold block_of, Dict.mem in *.
    destruct (Dict.get key d); [discriminate|reflexivity].
Qed.

(** X12.  When ["interests"] is a list, each interest gets one line, in
    the order of the list, numbered from 1: the line of the interest at
    position [k] (counting from 0) reads ["<k+1>. <interest>"]. *)
Theorem interests_are_numbered_from_one l :
  List.length (interests_body py_repr (PyList l)) = List.length l
  /\ (forall k x,
         nth_error l k = Some x ->
         nth_error (interests_body py_repr (PyList l)) k
         = Some (st_write (PyStr.of_Z (Z.of_nat k + 1) ++ lit ". "
                           ++ format_value py_repr x))).
Proof.
  split; [apply numbered_length|].
  intros k x H. cbn [interests_body].
  rewrite (numbered_nth 1 _ _ H).
  now replace (1 + Z.of_nat k)%Z with (Z.of_nat k + 1)%Z by lia.
Qed.

End PageFacts.

(** ** The script from its first line *)

Section ScriptFacts.

Variable py_repr : value -> str.
Variable float_truthy : str -> bool.
Variable json_dumps : value -> str.
Variable json_loads : str -> exn + value.
Variable exc_str : exn -> str.

Let render := render_results py_repr float_truthy.
Let shown := displayed py_repr float_truthy.
Let run_once := script_run py_repr float_truthy json_dumps json_loads exc_str.
Let run_all := script_runs py_repr float_truthy json_dumps json_loads exc_str.

Lemma truthy_key key : PyStr.truthy (key_text key) = negb (not_key key).
Proof. destruct key as [[|c k]|]; reflexivity. Qed.

Lemma displayed_dict d : shown (PyDict d) = inr [ st_rendered (PyDict d) ].
Proof.
  unfold shown, displayed.
  rewrite (render_dict py_repr float_truthy d). destruct d; reflexivity.
Qed.

(** A text or a list that contains one of the three words cuts the
    page short. *)
Lemma render_text_or_list v :
  (exists t, v = PyStr t) \/ (exists l, v = PyList l) ->
  py_in (lit "interests") v = inr true
  \/ py_in (lit "mapping") v = inr true
  \/ py_in (lit "explanations") v = inr true ->
  snd (render v) = Some TypeError.
Proof.
  intros Hv Hin.
  assert (Ht : truth float_truthy v = true).
  { destruct Hv as [(t & ->)|(l & ->)]; [destruct t|destruct l];
      try reflexivity; exfalso;
      destruct Hin as [H|[H|H]]; vm_compute in H; discriminate H. }
  unfold render, render_results. rewrite Ht.
  repeat match goal with
    | |- context [block ?k ?t ?b v] =>
        let f := fresh "found" in
        let Hf := fresh "Hf" in
        let Hb := fresh "Hb" in
        destruct (block_on_text_or_list k t b Hv) as (f & Hf & Hb);
        rewrite Hb; rewrite Hf in Hin; clear Hb
    end.
  destruct found, found0, found1; try reflexivity;
    exfalso; destruct Hin as [H|[H|H]]; discriminate H.
Qed.

(** X13.  With a credential, a stored result that is a dict can always
    be left: the page above the button is put up whole, whatever the
    dict holds, so a run with "Start New Analysis" pressed ends in the
    session of a new tab. *)
Theorem dict_results_can_always_be_reset secret getenv key d s post t :
  resolve_api_key secret getenv = inr key ->
  not_key key = false ->
  step s = showing_results ->
  results s = PyDict d ->
  final (run_once secret getenv post
           {| typed := t; pressed := Some new_analysis |} s)
  = fresh.
Proof.
  intros Hkey Hnot Hstep Hres.
  unfold run_once, script_run. rewrite Hkey, main_final.
  rewrite truthy_key, Hnot, Hstep, Hres. cbn [negb].
  fold shown. now rewrite displayed_dict.
Qed.

(** X14.  A stored result that is a text or a list containing one of
    the words ["interests"], ["mapping"], ["explanations"] cuts the
    results page short with [TypeError], before the "Start New Analysis"
    button is reached.  From then on no run of the script, whatever the
    user does and whatever the network answers, changes the session: it
    stays in the results panel with that result. *)
Theorem text_or_list_results_lock_the_session v :
  (exists t, v = PyStr t) \/ (exists l, v = PyList l) ->
  py_in (lit "interests") v = inr true
  \/ py_in (lit "mapping") v = inr true
  \/ py_in (lit "explanations") v = inr true ->
  snd (render v) = Some TypeError
  /\ (forall s,
         step s = showing_results ->
         results s = v ->
         forall secret getenv l, run_all secret getenv l s = s).
Proof.
  intros Hv Hin.
  pose proof (render_text_or_list Hv Hin) as Hr.
  split; [exact Hr|].
  intros s Hstep Hres secret getenv l.
  induction l as [|[post i] l IH]; [reflexivity|].
  unfold run_all in *. cbn [script_runs].
  replace (final (script_run py_repr float_truthy json_dumps json_loads
                    exc_str secret getenv post i s)) with s; [exact IH|].
  unfold script_run.
  destruct (resolve_api_key secret getenv) as [e|key]; [reflexivity|].
  rewrite main_final, Hstep, Hres.
  destruct (PyStr.truthy (key_text key)); [|reflexivity].
  unfold displayed. fold render. now rewrite Hr.
Qed.

(** X15.  The credential is the secret whenever the secrets hold one,
    whatever the environment says, and the environment variable only
    when the lookup of the secret raises [KeyError] or [AttributeError].
    When the value so obtained is missing or empty (an empty secret
    next to a usable environment variable included), every run shows
    the configuration error and stops before any panel: no request is
    sent and the session never changes. *)
Theorem credential_resolution secret getenv post i s :
  (forall k, secret = inr k ->
             resolve_api_key secret getenv = inr (Some k))
  /\ (forall e,
         secret = inl e ->
         resolve_api_key secret getenv
         = match e with
           | KeyError _ | AttributeError => inr getenv
           | _ => inl e
           end)
  /\ (forall key,
         resolve_api_key secret getenv = inr key ->
         not_key key = true ->
         run_once secret getenv post i s
         = {| final := s;
              effects :=
                [ st_error
                    (PyStr (lit "Please set OPENROUTER_API_KEY in your Streamlit secrets or .env file")) ];
              outcome := inl Stop |}
         /\ forall l, run_all secret getenv l s = s).
Proof.
  split; [intros k ->; reflexivity|].
  split; [intros e ->; destruct e; reflexivity|].
  intros key Hkey Hnot.
  assert (Hrun : forall post i s,
             run_once secret getenv post i s
             = {| final := s;
                  effects :=
                    [ st_error
                        (PyStr (lit "Please set OPENROUTER_API_KEY in your Streamlit secrets or .env file")) ];
                  outcome := inl Stop |}).
  { intros post' i' s'. unfold run_once, script_run, main.
    now rewrite Hkey, truthy_key, Hnot. }
  split; [apply Hrun|].
  intros l. revert s. induction l as [|[post' i'] l IH]; intros s;
    [reflexivity|].
  unfold run_all in *. cbn [script_runs].
  fold run_once. rewrite Hrun. apply IH.
Qed.

End ScriptFacts.

(** ** The further properties on examples *)

Lemma only_unbound_content_example :
  exists e,
    Demo.get_career_advice
      (Demo.answers 200 (lit "<html>Service Unavailable</html>"))
      (lit "I like drawing") = inl e.
Proof.
  refine (proj2 (proj2 (@only_unbound_content_leaves_the_call
                          Demo.API_KEY Json.dumps Json.loads Demo.exc_str
                          (Demo.answers 200
                             (lit "<html>Service Unavailable</html>"))
                          (lit "I like drawing"))) _).
  right. eexists. repeat split; vm_compute; reflexivity.
Defined.

Lemma transport_fault_example :
  Demo.on_initial_button (Demo.unreachable (lit "Connection refused"))
    (Demo.typing (lit "I like art"))
  = {| final := Demo.typing (lit "I like art");
       effects :=
         [ http_post (request_for Demo.API_KEY Json.dumps (lit "I like art"));
           st_error (PyStr (lit "Error: Connection refused")) ];
       outcome := inr tt |}.
Proof.
  refine (proj1 (proj2
            (@transport_fault_is_error
               Demo.API_KEY Json.dumps Json.loads Demo.exc_str
               (Demo.unreachable (lit "Connection refused"))
               (TransportError (lit "Connection refused")) _))
            (Demo.typing (lit "I like art")) _ _); reflexivity.
Defined.

Lemma malformed_body_example :
  Demo.get_career_advice (Demo.answers 200 (lit "{}")) (lit "I like art")
  = inr (PyDict
           [ (lit "error",
              PyStr (lit "Error: "
                     ++ Demo.exc_str (KeyError (PyStr (lit "choices"))))) ]).
Proof.
  refine (proj1
            (@malformed_body_is_error
               Demo.API_KEY Json.dumps Json.loads Demo.exc_str
               (Demo.answers 200 (lit "{}"))
               {| status_code := 200; text := lit "{}" |}
               (PyDict []) (KeyError (PyStr (lit "choices"))) _ _ _)
            (lit "I like art") _); vm_compute; reflexivity.
Defined.

Lemma null_content_example :
  Demo.get_career_advice
    (Demo.answers 200 (Scene.completion_of PyNone)) (lit "I like art")
  = inr (PyDict
           [ (lit "error", PyStr (lit "Error: " ++ Demo.exc_str TypeError)) ]).
Proof.
  refine (proj1
            (@undecodable_content_is_error
               Demo.API_KEY Json.dumps Json.loads Demo.exc_str
               (Demo.answers 200 (Scene.completion_of PyNone))
               (lit "I like art") PyNone _) _).
  - eexists. eexists. repeat split; vm_compute; reflexivity.
  - intros t H. discriminate H.
Defined.

Lemma number_reply_example :
  Demo.on_initial_button (Demo.answers 200 (Demo.completion (lit "42")))
    (Demo.typing (lit "I like art"))
  = {| final := Demo.typing (lit "I like art");
       effects :=
         [ http_post (request_for Demo.API_KEY Json.dumps (lit "I like art")) ];
       outcome := inl (Raise TypeError) |}.
Proof.
  refine (proj1
            (@reply_that_is_no_dict_raises
               Demo.API_KEY Json.dumps Json.loads Demo.exc_str
               (Demo.answers 200 (Demo.completion (lit "42")))
               (PyInt 42) _ _)
            (Demo.typing (lit "I like art")) _ _).
  - intros d H. discriminate H.
  - left. intros H. discriminate H.
  - reflexivity.
  - vm_compute. reflexivity.
Defined.

Lemma quoted_reply_is_stored_example :
  Demo.on_initial_button Scene.sends_quoted (Demo.typing (lit "I like art"))
  = {| final := Scene.showing (PyStr Scene.quoted_reply);
       effects :=
         [ http_post (request_for Demo.API_KEY Json.dumps (lit "I like art")) ];
       outcome := inl Rerun |}.
Proof.
  refine (proj1
            (@text_or_list_reply_is_stored
               Demo.API_KEY Json.dumps Json.loads Demo.exc_str
               Scene.sends_quoted (PyStr Scene.quoted_reply) _ _ _)
            (Demo.typing (lit "I like art")) _ _).
  - left. eexists. reflexivity.
  - reflexivity.
  - reflexivity.
  - reflexivity.
  - vm_compute. reflexivity.
Defined.

Lemma one_request_per_run_example :
  requests_of
    (effects (Demo.main (Demo.answers 200 (Demo.completion Demo.result_reply))
                (Demo.press initial_button (lit "I like art")) fresh))
  = [ request_for Demo.API_KEY Json.dumps (lit "I like art") ].
Proof.
  refine (proj2
            (@one_request_per_run
               Demo.API_KEY Json.dumps Json.loads Demo.exc_str
               Demo.display_results
               (Demo.answers 200 (Demo.completion Demo.result_reply))
               (Demo.press initial_button (lit "I like art")) fresh _)).
  intros v page H. injection H as <-. reflexivity.
Defined.

Lemma results_panel_keeps_or_resets_example :
  final (Demo.main (Demo.unreachable (lit "Connection refused"))
           (Demo.press clarify_button (lit "anything"))
           (Scene.showing Demo.result_value))
  = Scene.showing Demo.result_value
  \/ final (Demo.main (Demo.unreachable (lit "Connection refused"))
              (Demo.press clarify_button (lit "anything"))
              (Scene.showing Demo.result_value))
     = fresh.
Proof.
  refine (proj1
            (@results_panel_keeps_or_resets
               Demo.API_KEY Json.dumps Json.loads Demo.exc_str
               Demo.display_results
               (Demo.unreachable (lit "Connection refused"))
               (Demo.press clarify_button (lit "anything"))
               (Scene.showing Demo.result_value) _)).
  reflexivity.
Defined.

Lemma dict_results_can_always_be_reset_example :
  final (Scene.script_run (inl (KeyError (PyStr (lit "OPENROUTER_API_KEY"))))
           (Some Demo.API_KEY)
           (Demo.unreachable (lit "Connection refused"))
           (Demo.press new_analysis [])
           (Scene.showing Demo.result_value))
  = fresh.
Proof.
  refine (@dict_results_can_always_be_reset
            Scene.py_repr Scene.float_truthy Json.dumps Json.loads Demo.exc_str
            (inl (KeyError (PyStr (lit "OPENROUTER_API_KEY"))))
            (Some Demo.API_KEY) (Some Demo.API_KEY) _
            (Scene.showing Demo.result_value)
            (Demo.unreachable (lit "Connection refused")) [] _ _ _ _);
    reflexivity.
Defined.

Lemma quoted_reply_locks_the_session_example :
  snd (Scene.render_results (PyStr Scene.quoted_reply)) = Some TypeError
  /\ (forall s,
         step s = showing_results ->
         results s = PyStr Scene.quoted_reply ->
         forall secret getenv l,
           script_runs Scene.py_repr Scene.float_truthy Json.dumps Json.loads
             Demo.exc_str secret getenv l s = s).
Proof.
  refine (@text_or_list_results_lock_the_session
            Scene.py_repr Scene.float_truthy Json.dumps Json.loads Demo.exc_str
            (PyStr Scene.quoted_reply) _ _).
  - left. eexists. reflexivity.
  - left. reflexivity.
Defined.

Lemma empty_secret_example :
  Scene.script_run (inr []) (Some Demo.API_KEY)
    (Demo.answers 200 (Demo.completion Demo.result_reply))
    (Demo.press initial_button (lit "I like art")) fresh
  = {| final := fresh;
       effects :=
         [ st_error
             (PyStr (lit "Please set OPENROUTER_API_KEY in your Streamlit secrets or .env file")) ];
       outcome := inl Stop |}.
Proof.
  refine (proj1 (proj2 (proj2
            (@credential_resolution
               Scene.py_repr Scene.float_truthy Json.dumps Json.loads
               Demo.exc_str (inr []) (Some Demo.API_KEY)
               (Demo.answers 200 (Demo.completion Demo.result_reply))
               (Demo.press initial_button (lit "I like art")) fresh))
            (Some []) _ _)); reflexivity.
Defined.
